(** * app.py: a REST facade over PRODUCT_EMBEDDINGS

    A shallow embedding of [src/app.py]: the configuration reader
    [hana_cfg], the retrying connector [connect_hana], the error envelope
    [api_ok] and the route handlers, followed by the properties that the
    specification states about them.

    Python code that raises is embedded in a state-and-exception monad
    over a [world] holding the process environment, the behaviour of the
    database driver and a log of the calls the program makes. *)

From Stdlib Require Import ZArith String Ascii List Bool Lia DecimalString DecimalPos.
From stdpp Require Import base option strings gmap list sorting.

Local Open Scope string_scope.
Local Open Scope Z_scope.
Local Open Scope list_scope.

(* ================================================================== *)
(** * Python values and exceptions *)
(* ================================================================== *)

Module Py.

(** The exception classes that the program and its libraries raise, with
    the part of Python's class hierarchy that [except] clauses look at. *)
Inductive exn_class : Type :=
  | BaseException
  | KeyboardInterrupt
  | SystemExit
  | Exception
  | RuntimeError
  | NotImplementedError
  | RecursionError
  | ValueError
  | TypeError
  | AttributeError
  | OSError
  | LookupError
  | IndexError
  | BadRequest        (* werkzeug.exceptions.BadRequest *)
  | DriverError.      (* hdbcli.dbapi.Error *)

#[global] Instance exn_class_eq_dec : EqDecision exn_class.
Proof. solve_decision. Defined.

(** The direct base class. *)
Definition exn_base (c : exn_class) : option exn_class :=
  match c with
  | BaseException => None
  | KeyboardInterrupt | SystemExit | Exception => Some BaseException
  | RuntimeError | ValueError | TypeError | AttributeError
  | OSError | LookupError | BadRequest | DriverError => Some Exception
  | IndexError => Some LookupError
  | NotImplementedError | RecursionError => Some RuntimeError
  end.

Fixpoint subclass_upto (fuel : nat) (c d : exn_class) : bool :=
  if decide (c = d) then true
  else match fuel with
       | O => false
       | S fuel' =>
           match exn_base c with
           | Some b => subclass_upto fuel' b d
           | None => false
           end
       end.

(** [issubclass c d]; the hierarchy above is three levels deep. *)
Definition issubclass (c d : exn_class) : bool := subclass_upto 3 c d.

Definition class_name (c : exn_class) : string :=
  match c with
  | BaseException => "BaseException"
  | KeyboardInterrupt => "KeyboardInterrupt"
  | SystemExit => "SystemExit"
  | Exception => "Exception"
  | RuntimeError => "RuntimeError"
  | NotImplementedError => "NotImplementedError"
  | RecursionError => "RecursionError"
  | ValueError => "ValueError"
  | TypeError => "TypeError"
  | AttributeError => "AttributeError"
  | OSError => "OSError"
  | LookupError => "LookupError"
  | IndexError => "IndexError"
  | BadRequest => "werkzeug.exceptions.BadRequest"
  | DriverError => "hdbcli.dbapi.Error"
  end.

(** A raised exception: its class, the text [str(e)] and the stack frames
    that [e.__traceback__] formats to. *)
Record exn : Type := Exn {
  exn_type : exn_class;
  exn_str : string;
  exn_frames : string;
}.

Definition isinstance (e : exn) (c : exn_class) : bool :=
  issubclass (exn_type e) c.

(** The last line of a formatted traceback. *)
Definition format_exception_only (e : exn) : string :=
  match exn_str e with
  | EmptyString => class_name (exn_type e) +:+ "
"
  | msg => class_name (exn_type e) +:+ ": " +:+ msg +:+ "
"
  end.

(** ["".join(traceback.format_exception(type(e), e, e.__traceback__))],
    which is also what [traceback.format_exc()] returns while [e] is being
    handled. *)
Definition format_exception (e : exn) : string :=
  "Traceback (most recent call last):
" +:+ exn_frames e +:+ format_exception_only e.

(** JSON documents as the Python values [json] decodes them to; these are
    also the values bound to SQL parameters.  Numbers are integers. *)
#[warnings="-register-all"]
Inductive json : Type :=
  | JNull
  | JBool (b : bool)
  | JInt (n : Z)
  | JStr (s : string)
  | JList (l : list json)
  | JDict (kvs : list (string * json)).

(** Truth value of a Python value, as [not v] tests it. *)
Definition truthy (v : json) : bool :=
  match v with
  | JNull => false
  | JBool b => b
  | JInt n => negb (n =? 0)
  | JStr s => negb (String.eqb s "")
  | JList l => match l with [] => false | _ => true end
  | JDict kvs => match kvs with [] => false | _ => true end
  end.

(** [type(v).__name__]. *)
Definition type_name (v : json) : string :=
  match v with
  | JNull => "NoneType"
  | JBool _ => "bool"
  | JInt _ => "int"
  | JStr _ => "str"
  | JList _ => "list"
  | JDict _ => "dict"
  end.

(** Lookup in a dict given by its items. *)
Fixpoint dict_lookup (k : string) (kvs : list (string * json)) : option json :=
  match kvs with
  | [] => None
  | (k', v) :: rest => if String.eqb k k' then Some v else dict_lookup k rest
  end.

(** [str(n)] for an int. *)
Definition str_of_int (n : Z) : string := NilZero.string_of_int (Z.to_int n).

(** ** Text: [str.lower], [int(str)] and [repr(str)] on ASCII text *)

Definition lower_ascii (c : ascii) : ascii :=
  let n := nat_of_ascii c in
  if ((65 <=? n) && (n <=? 90))%nat then ascii_of_nat (n + 32) else c.

Fixpoint lower (s : string) : string :=
  match s with
  | EmptyString => EmptyString
  | String c s' => String (lower_ascii c) (lower s')
  end.

(** White space that [int] strips: TAB..CR, FS..US and the blank. *)
Definition is_space (c : ascii) : bool :=
  let n := nat_of_ascii c in
  (((9 <=? n) && (n <=? 13)) || ((28 <=? n) && (n <=? 32)))%nat.

Fixpoint lstrip (s : string) : string :=
  match s with
  | EmptyString => EmptyString
  | String c s' => if is_space c then lstrip s' else s
  end.

Fixpoint rstrip (s : string) : string :=
  match s with
  | EmptyString => EmptyString
  | String c s' =>
      match rstrip s' with
      | EmptyString => if is_space c then EmptyString else String c EmptyString
      | t => String c t
      end
  end.

Definition strip (s : string) : string := rstrip (lstrip s).

Definition digit_of (c : ascii) : option Z :=
  let n := nat_of_ascii c in
  if ((48 <=? n) && (n <=? 57))%nat then Some (Z.of_nat n - 48) else None.

(** Decimal digits, where single underscores may separate two digits;
    [after_digit] tells whether the character before was a digit. *)
Fixpoint digits_value (acc : Z) (after_digit : bool) (s : string) : option Z :=
  match s with
  | EmptyString => if after_digit then Some acc else None
  | String c s' =>
      match digit_of c with
      | Some d => digits_value (10 * acc + d) true s'
      | None =>
          if Ascii.eqb c "_" && after_digit then digits_value acc false s'
          else None
      end
  end.

(** [int(s)] for a string [s]: [None] where Python raises [ValueError]. *)
Definition int_of_str (s : string) : option Z :=
  match strip s with
  | String "-" t => Z.opp <$> digits_value 0 false t
  | String "+" t => digits_value 0 false t
  | t => digits_value 0 false t
  end.

Definition hex_digit (n : nat) : ascii :=
  if (n <? 10)%nat then ascii_of_nat (48 + n) else ascii_of_nat (87 + n).

Fixpoint contains_char (c : ascii) (s : string) : bool :=
  match s with
  | EmptyString => false
  | String c' s' => Ascii.eqb c c' || contains_char c s'
  end.

Definition repr_char (quote c : ascii) : string :=
  let n := nat_of_ascii c in
  if Ascii.eqb c quote || Ascii.eqb c "\" then String "\" (String c EmptyString)
  else if (n =? 9)%nat then "\t"
  else if (n =? 10)%nat then "\n"
  else if (n =? 13)%nat then "\r"
  else if ((n <? 32) || (n =? 127))%nat then
    String "\" (String "x" (String (hex_digit (n / 16))
                              (String (hex_digit (n mod 16)) EmptyString)))
  else String c EmptyString.

Fixpoint repr_body (quote : ascii) (s : string) : string :=
  match s with
  | EmptyString => EmptyString
  | String c s' => repr_char quote c +:+ repr_body quote s'
  end.

(** [repr(s)]: single quotes, unless [s] has a single quote and no double
    quote. *)
Definition repr (s : string) : string :=
  let dquote := ascii_of_nat 34 in
  let quote : ascii :=
    if contains_char "'" s && negb (contains_char dquote s) then dquote
    else "'"%char in
  String quote (repr_body quote s) +:+ String quote EmptyString.

End Py.

Import Py.

(* ================================================================== *)
(** * The data of the program *)
(* ================================================================== *)

(** The value that [hana_cfg] builds. *)
Record hana_config : Type := HanaConfig {
  address : option string;
  port : Z;
  user : option string;
  password : option string;
  encrypt : bool;
  sslValidateCertificate : bool;
}.

(** A row of PRODUCT_EMBEDDINGS. *)
Record row : Type := Row {
  product_id : Z;
  name : json;
  description : json;
  vector : json;
}.

Definition row_le (r1 r2 : row) : Prop := product_id r1 <= product_id r2.

#[global] Instance row_le_dec : RelDecision row_le.
Proof. intros r1 r2. unfold row_le. apply _. Defined.

(** The SQL statements of the handlers, for the table of a schema. *)
Inductive statement : Type :=
  | SelectAll (schema : string)
      (* SELECT PRODUCT_ID, NAME, DESCRIPTION FROM .. ORDER BY PRODUCT_ID *)
  | SelectMaxId (schema : string)
      (* SELECT MAX(PRODUCT_ID) FROM .. *)
  | InsertRow (schema : string) (id name description vector : json)
      (* INSERT INTO .. (PRODUCT_ID, NAME, DESCRIPTION, VECTOR) VALUES (?,?,?,?) *)
  | UpdateDescription (schema : string) (description name : json)
      (* UPDATE .. SET DESCRIPTION = ? WHERE NAME = ? *)
  | DeleteByName (schema : string) (name : json).
      (* DELETE FROM .. WHERE NAME = ? *)

(** What a cursor holds after [execute]. *)
Record cursor_state : Type := CursorState {
  pending : list (list json);
  rowcount : Z;
}.

Inductive result (A : Type) : Type :=
  | Ok (a : A)
  | Raise (e : exn).
Arguments Ok {A} a.
Arguments Raise {A} e.

(** An open session is named by the number of the [dbapi.connect] call
    that returned it. *)
Definition conn : Type := nat.

(** What the two probes of [tls_test] meet on the network. *)
Inductive tcp_outcome : Type :=
  | TcpOk
  | TcpConnectRaises (e : exn)
  | TcpCloseRaises (e : exn).

Inductive tls_outcome : Type :=
  | TlsCipher (cipher : json)
  | TlsRaises (e : exn)
  | TlsCloseRaises (cipher : json) (e : exn).

(** What the process is given and does not change while it serves one
    request. *)
Record setting : Type := Setting {
  environ : gmap string string;          (* os.environ *)
  dbapi_loaded : bool;                   (* dbapi is not None *)
  connect_outcome : nat -> option exn;   (* the n-th dbapi.connect: None opens a session *)
  driver_fault : nat -> option exn;      (* the n-th call on a session or cursor *)
  request_json : result json;            (* request.get_json(force=True) *)
  tcp_probe : tcp_outcome;
  tls_probe : tls_outcome;
}.

Record response : Type := Response {
  status : Z;
  body : json;
}.

(** [jsonify(j)], a response with status 200; [jsonify(j), code] is
    written [Response code j]. *)
Definition jsonify (j : json) : response := Response 200 j.

(* ================================================================== *)
(** * The world of a request and the monad of Python code *)
(* ================================================================== *)

Section Run.

(** The type of the numbers given to [time.sleep]. *)
Variable delay : Type.

(** The calls the program makes on the outside. *)
Inductive event : Type :=
  | EvConnect (cfg : hana_config)
  | EvSleep (d : delay)
  | EvCursor (c : conn)
  | EvExecute (c : conn) (q : statement)
  | EvFetchall (c : conn)
  | EvFetchone (c : conn)
  | EvCommit (c : conn)
  | EvCursorClose (c : conn)
  | EvClose (c : conn).

Record world : Type := World {
  host : setting;
  table : list row;            (* PRODUCT_EMBEDDINGS *)
  cursor : cursor_state;       (* the cursor of this request *)
  connects : nat;              (* dbapi.connect calls so far *)
  driver_calls : nat;          (* calls on sessions and cursors so far *)
  calls : list event;          (* oldest first *)
}.

Definition M (A : Type) : Type := world -> result A * world.

#[global] Instance M_ret : MRet M := fun A a w => (Ok a, w).
#[global] Instance M_bind : MBind M := fun A B f m w =>
  match m w with
  | (Ok a, w') => f a w'
  | (Raise e, w') => (Raise e, w')
  end.

Definition raise {A} (e : exn) : M A := fun w => (Raise e, w).

(** The body of a [try]: its outcome is handed to the [except] clauses. *)
Definition try_ {A} (m : M A) : M (result A) := fun w =>
  let '(r, w') := m w in (Ok r, w').

Definition get_host : M setting := fun w => (Ok (host w), w).

Definition log (ev : event) (w : world) : world :=
  World (host w) (table w) (cursor w) (connects w) (driver_calls w)
        (calls w ++ [ev]).

(** A world that has made no call yet. *)
Definition boot (h : setting) (t : list row) : world :=
  World h t (CursorState [] (-1)) 0 0 [].

End Run.

Arguments EvConnect {delay} cfg.
Arguments EvSleep {delay} d.
Arguments EvCursor {delay} c.
Arguments EvExecute {delay} c q.
Arguments EvFetchall {delay} c.
Arguments EvFetchone {delay} c.
Arguments EvCommit {delay} c.
Arguments EvCursorClose {delay} c.
Arguments EvClose {delay} c.
Arguments World {delay} host table cursor connects driver_calls calls.
Arguments host {delay} w.
Arguments table {delay} w.
Arguments cursor {delay} w.
Arguments connects {delay} w.
Arguments driver_calls {delay} w.
Arguments calls {delay} w.
Arguments raise {delay A} e w.
Arguments try_ {delay A} m w.
Arguments get_host {delay} w.
Arguments log {delay} ev w.
Arguments boot {delay} h t.

(* ================================================================== *)
(** * Sample settings *)
(* ================================================================== *)

(** Delays in whole seconds; [time.sleep] refuses a negative one. *)
Definition sleep_nonneg (d : Z) : option exn :=
  if d <? 0 then Some (Exn ValueError "sleep length must be non-negative" "")
  else None.

Definition no_frames (_ : Z) : string := "".

Definition env_full : gmap string string :=
  list_to_map [("HANA_ADDRESS", "hana.example"); ("HANA_USER", "app");
               ("HANA_PASSWORD", "secret")].

Definition env_no_password : gmap string string :=
  list_to_map [("HANA_ADDRESS", "hana.example"); ("HANA_USER", "app")].

Definition env_bad_port : gmap string string :=
  list_to_map [("HANA_ADDRESS", "hana.example"); ("HANA_USER", "app");
               ("HANA_PASSWORD", "secret"); ("HANA_PORT", "abc")].

Definition cfg_full : hana_config :=
  HanaConfig (Some "hana.example") 443 (Some "app") (Some "secret") true false.

Definition cfg_no_password : hana_config :=
  HanaConfig (Some "hana.example") 443 (Some "app") None true false.

Definition refused : exn := Exn DriverError "connection refused" "".

(** The first [k] calls of [dbapi.connect] are refused. *)
Definition fails_first (k n : nat) : option exn :=
  if (n <? k)%nat then Some refused else None.

Definition no_fault (_ : nat) : option exn := None.

(** The second call on the session, the [execute], fails. *)
Definition execute_fails (n : nat) : option exn :=
  if (n =? 1)%nat then Some (Exn DriverError "table unknown" "") else None.

Definition site (env : gmap string string) (k : nat) (fault : nat -> option exn)
    (body : json) : setting :=
  Setting env true (fails_first k) fault (Ok body) TcpOk (TlsCipher JNull).

Definition stock : list row :=
  [Row 5 (JStr "Widget") (JStr "old") JNull;
   Row 2 (JStr "Gadget") (JStr "") JNull;
   Row 3 (JStr "Widget") (JStr "older") JNull].

Definition widget : json := JDict [("name", JStr "Widget"); ("description", JStr "")].
Definition no_fields : json := JDict [].
Definition null_description : json := JDict [("description", JNull)].

Definition w_ready : world Z := boot (site env_full 0 no_fault widget) stock.
Definition w_flaky : world Z := boot (site env_full 2 no_fault widget) stock.
Definition w_down : world Z := boot (site env_full 3 no_fault widget) stock.
Definition w_no_password : world Z := boot (site env_no_password 0 no_fault widget) stock.
Definition w_bad_port : world Z := boot (site env_bad_port 0 no_fault widget) stock.
Definition w_broken : world Z := boot (site env_full 0 execute_fails widget) stock.
Definition w_fresh : world Z := boot (site env_full 0 no_fault widget) [].
Definition w_no_fields : world Z := boot (site env_full 0 no_fault no_fields) stock.
Definition w_null : world Z := boot (site env_full 0 no_fault null_description) stock.

(** A handler that raises a [RuntimeError] of its own. *)
Definition boom : exn := Exn RuntimeError "boom" "".
Definition raises_boom (_ : unit) : M Z response := raise boom.

Definition bad_value : exn := Exn ValueError "bad" "".
Definition raises_bad_value (_ : unit) : M Z response := raise bad_value.

Definition interrupt : exn := Exn KeyboardInterrupt "" "".

(** The first call of [dbapi.connect] is interrupted from the keyboard. *)
Definition interrupted (n : nat) : option exn :=
  if (n =? 0)%nat then Some interrupt else None.

Definition timed_out : exn := Exn OSError "timed out" "".

Definition negative_sleep : exn :=
  Exn ValueError "sleep length must be non-negative" "".


Definition w_no_driver : world Z :=
  boot (Setting env_bad_port false (fails_first 0) no_fault (Ok widget)
                TcpOk (TlsCipher JNull)) stock.
Definition w_interrupted : world Z :=
  boot (Setting env_full true interrupted no_fault (Ok widget)
                TcpOk (TlsCipher JNull)) stock.
Definition w_unreachable : world Z :=
  boot (Setting env_full true (fails_first 3) no_fault (Ok widget)
                (TcpConnectRaises timed_out) (TlsRaises timed_out)) stock.
Definition w_dead : world Z := boot (site env_full 5 no_fault widget) stock.
Definition w_list_body : world Z := boot (site env_full 0 no_fault (JList [])) stock.

(** [w_ready] and [w_broken] once [connect_hana] has returned session 0. *)
Definition w_connected : world Z :=
  World (host w_ready) stock (CursorState [] (-1)) 1 0 [EvConnect cfg_full].
Definition w_broken_connected : world Z :=
  World (host w_broken) stock (CursorState [] (-1)) 1 0 [EvConnect cfg_full].

Definition raises_interrupt (_ : unit) : M Z response := raise interrupt.

(* ================================================================== *)
(** * The program *)
(* ================================================================== *)

Section App.

(** Numbers given to [time.sleep]: [delay_mul b i] is [b * i],
    [sleep_check d] is the exception [time.sleep(d)] raises, if any, and
    [default_backoff] is the default 1.0 of [connect_hana].
    [stack n] is the formatted stack of an exception raised at line [n]. *)
Variable delay : Type.
Variable delay_mul : delay -> Z -> delay.
Variable sleep_check : delay -> option exn.
Variable default_backoff : delay.
Variable stack : Z -> string.

Local Abbreviation M := (M delay).
Local Abbreviation world := (world delay).
Local Abbreviation event := (event delay).

(** ** The libraries the program calls *)

(** [dbapi.connect(...)]. *)
Definition dbapi_connect (cfg : hana_config) : M conn := fun w =>
  let n := connects w in
  let w' := World (host w) (table w) (cursor w) (S n) (driver_calls w)
                  (calls w ++ [EvConnect cfg]) in
  match connect_outcome (host w) n with
  | None => (Ok n, w')
  | Some e => (Raise e, w')
  end.

(** [time.sleep(d)]. *)
Definition time_sleep (d : delay) : M unit := fun w =>
  match sleep_check d with
  | Some e => (Raise e, w)
  | None => (Ok tt, log (EvSleep d) w)
  end.

(** A call on a session or on its cursor: it is logged, and raises when
    the driver fails at this call. *)
Definition driver_call (ev : event) : M unit := fun w =>
  let n := driver_calls w in
  let w' := World (host w) (table w) (cursor w) (connects w) (S n)
                  (calls w ++ [ev]) in
  match driver_fault (host w) n with
  | None => (Ok tt, w')
  | Some e => (Raise e, w')
  end.

Definition name_matches (n : json) (r : row) : bool :=
  match n, name r with
  | JStr a, JStr b => String.eqb a b
  | _, _ => false
  end.

Definition max_id (t : list row) : json :=
  match t with
  | [] => JNull
  | r :: t' => JInt (fold_right Z.max (product_id r) (map product_id t'))
  end.

Definition sql_error (msg : string) : exn := Exn DriverError msg "".

(** What a statement does to the table and leaves in the cursor.  The
    database is outside the program: each statement is given its SQL
    reading on the rows of the table, MAX of no row being NULL, and takes
    effect when it is executed. *)
Definition run_statement (q : statement) (t : list row)
  : result (list row * cursor_state) :=
  match q with
  | SelectAll _ =>
      let sorted := merge_sort row_le t in
      Ok (t, CursorState
                (map (fun r => [JInt (product_id r); name r; description r]) sorted)
                (-1))
  | SelectMaxId _ => Ok (t, CursorState [[max_id t]] (-1))
  | InsertRow _ (JInt id) n d v => Ok (t ++ [Row id n d v], CursorState [] 1)
  | InsertRow _ _ _ _ _ => Raise (sql_error "invalid PRODUCT_ID")
  | UpdateDescription _ d n =>
      Ok (map (fun r => if name_matches n r
                        then Row (product_id r) (name r) d (vector r) else r) t,
          CursorState [] (Z.of_nat (length (List.filter (name_matches n) t))))
  | DeleteByName _ n =>
      Ok (List.filter (fun r => negb (name_matches n r)) t,
          CursorState [] (Z.of_nat (length (List.filter (name_matches n) t))))
  end.

Definition conn_cursor (c : conn) : M conn :=
  driver_call (EvCursor c);; mret c.

Definition apply_statement (q : statement) : M unit := fun w =>
  match run_statement q (table w) with
  | Ok (t', cs) =>
      (Ok tt, World (host w) t' cs (connects w) (driver_calls w) (calls w))
  | Raise e => (Raise e, w)
  end.

Definition take_all : M (list (list json)) := fun w =>
  (Ok (pending (cursor w)),
   World (host w) (table w) (CursorState [] (rowcount (cursor w)))
         (connects w) (driver_calls w) (calls w)).

Definition take_one : M (option (list json)) := fun w =>
  match pending (cursor w) with
  | [] => (Ok None, w)
  | r :: rest =>
      (Ok (Some r),
       World (host w) (table w) (CursorState rest (rowcount (cursor w)))
             (connects w) (driver_calls w) (calls w))
  end.

Definition cur_execute (c : conn) (q : statement) : M unit :=
  driver_call (EvExecute c q);; apply_statement q.

Definition cur_fetchall (c : conn) : M (list (list json)) :=
  driver_call (EvFetchall c);; take_all.

Definition cur_fetchone (c : conn) : M (option (list json)) :=
  driver_call (EvFetchone c);; take_one.

Definition cur_rowcount (c : conn) : M Z := fun w => (Ok (rowcount (cursor w)), w).

Definition conn_commit (c : conn) : M unit := driver_call (EvCommit c).
Definition cur_close (c : conn) : M unit := driver_call (EvCursorClose c).
Definition conn_close (c : conn) : M unit := driver_call (EvClose c).

(** [r[i]] on a row tuple. *)
Definition tuple_get (r : list json) (i : nat) (line : Z) : M json :=
  match r !! i with
  | Some v => mret v
  | None => raise (Exn IndexError "tuple index out of range" (stack line))
  end.

(** [v + 1]. *)
Definition plus_one (v : json) : M json :=
  match v with
  | JInt n => mret (JInt (n + 1))
  | JBool b => mret (JInt ((if b then 1 else 0) + 1))
  | _ => raise (Exn TypeError
                  ("unsupported operand type(s) for +: '" +:+ type_name v +:+ "' and 'int'")
                  (stack 110))
  end.

(** [payload.get(key, default)]. *)
Definition payload_get (payload : json) (key : string) (dflt : json) (line : Z)
  : M json :=
  match payload with
  | JDict kvs => mret (default dflt (dict_lookup key kvs))
  | _ => raise (Exn AttributeError
                  ("'" +:+ type_name payload +:+ "' object has no attribute 'get'")
                  (stack line))
  end.

(** [request.get_json(force=True)]. *)
Definition get_json : M json := fun w =>
  match request_json (host w) with
  | Ok j => (Ok j, w)
  | Raise e => (Raise e, w)
  end.

(** ** app.py *)

(** Line 14. *)
Definition SCHEMA (h : setting) : string :=
  default "SMART_RETAIL1" (environ h !! "HANA_SCHEMA").

Definition flag (v : string) : bool :=
  let l := lower v in
  String.eqb l "1" || String.eqb l "true" || String.eqb l "yes".

(** The error of [int(s)] at line 19. *)
Definition invalid_literal (s : string) : exn :=
  Exn ValueError
    ("invalid literal for int() with base 10: " +:+ substring 0 200 (repr s))
    (stack 19).

(** Lines 16-24. *)
Definition hana_cfg : M hana_config :=
  h ← get_host;
  let env := environ h in
  p ← match env !! "HANA_PORT" with
      | None => mret 443
      | Some s =>
          match int_of_str s with
          | Some n => mret n
          | None => raise (invalid_literal s)
          end
      end;
  mret (HanaConfig (env !! "HANA_ADDRESS") p
          (env !! "HANA_USER") (env !! "HANA_PASSWORD")
          (flag (default "true" (env !! "HANA_ENCRYPT")))
          (flag (default "false" (env !! "HANA_SSL_VALIDATE")))).

(** [not v] for a value that is [None] or a string. *)
Definition blank (v : option string) : bool :=
  match v with
  | None => true
  | Some s => String.eqb s ""
  end.

Definition driver_missing : exn :=
  Exn RuntimeError "hdbcli not installed in container" (stack 28).

Definition config_missing : exn :=
  Exn RuntimeError
    "HANA config missing; set HANA_ADDRESS, HANA_PORT, HANA_USER, HANA_PASSWORD env vars."
    (stack 31).

Definition connect_failed (retries : Z) (last : exn) : exn :=
  Exn RuntimeError
    ("Unable to connect to HANA after " +:+ str_of_int retries
       +:+ " attempts. Last error: " +:+ exn_str last +:+ "
Traceback:
" +:+ format_exception last)
    (stack 45).

(** Lines 33-43: the loop over the rest of [range(1, retries+1)]; it
    returns the session, or [last] when the range is used up. *)
Fixpoint connect_loop (cfg : hana_config) (backoff : delay) (range : list Z)
    (last : option exn) : M (conn + option exn) :=
  match range with
  | [] => mret (inr last)
  | i :: range' =>
      r ← try_ (dbapi_connect cfg);
      match r with
      | Ok c => mret (inl c)
      | Raise e =>
          if isinstance e Exception then
            time_sleep (delay_mul backoff i);;
            connect_loop cfg backoff range' (Some e)
          else raise e
      end
  end.

(** Lines 26-45. *)
Definition connect_hana (retries : Z) (backoff : delay) : M conn :=
  h ← get_host;
  if negb (dbapi_loaded h) then raise driver_missing
  else
    cfg ← hana_cfg;
    if blank (address cfg) || blank (user cfg) || blank (password cfg)
    then raise config_missing
    else
      r ← connect_loop cfg backoff (seqZ 1 retries) None;
      match r with
      | inl c => mret c
      | inr (Some last) => raise (connect_failed retries last)
      | inr None =>
          raise (Exn AttributeError
                   "'NoneType' object has no attribute '__traceback__'"
                   (stack 44))
      end.

(** Lines 47-56. *)
Definition api_ok {A} (fn : A -> M response) : A -> M response := fun a =>
  r ← try_ (fn a);
  match r with
  | Ok resp => mret resp
  | Raise e =>
      if isinstance e RuntimeError then
        mret (Response 502
                (JDict [("error", JStr "connection_error");
                        ("message", JStr (exn_str e))]))
      else if isinstance e Exception then
        mret (Response 500
                (JDict [("error", JStr "internal");
                        ("message", JStr (exn_str e));
                        ("trace", JStr (format_exception e))]))
      else raise e
  end.

(** Lines 58-64. *)
Definition health (_ : unit) : M response :=
  h ← get_host;
  mret (jsonify (JDict [("status", JStr "ok");
                        ("hdbcli_installed", JBool (dbapi_loaded h));
                        ("hana_cfg_present",
                         JBool (negb (blank (environ h !! "HANA_ADDRESS"))))])).

Definition json_of_opt (v : option string) : json :=
  match v with
  | None => JNull
  | Some s => JStr s
  end.

(** An [except Exception as e] clause that stores [str(e)] under [key]. *)
Definition absorb (out : list (string * json)) (key : string) (e : exn)
  : M (list (string * json)) :=
  if isinstance e Exception then mret (out ++ [(key, JStr (exn_str e))])
  else raise e.

(** Lines 66-88. *)
Definition tls_test_body (_ : unit) : M response :=
  cfg ← hana_cfg;
  h ← get_host;
  let out := [("host", json_of_opt (address cfg)); ("port", JInt (port cfg))] in
  out ← match tcp_probe h with
        | TcpOk => mret (out ++ [("tcp", JStr "ok")])
        | TcpConnectRaises e => absorb out "tcp_error" e
        | TcpCloseRaises e => absorb (out ++ [("tcp", JStr "ok")]) "tcp_error" e
        end;
  out ← match tls_probe h with
        | TlsCipher c => mret (out ++ [("tls_cipher", c)])
        | TlsRaises e => absorb out "tls_error" e
        | TlsCloseRaises c e => absorb (out ++ [("tls_cipher", c)]) "tls_error" e
        end;
  mret (jsonify (JDict out)).

Definition tls_test : unit -> M response := api_ok tls_test_body.

(** Line 98: one entry of the [products] list. *)
Definition product_json (r : list json) : M json :=
  id ← tuple_get r 0 98;
  n ← tuple_get r 1 98;
  d ← tuple_get r 2 98;
  mret (JDict [("product_id", id); ("name", n); ("description", d)]).

(** Lines 90-98. *)
Definition list_products_body (_ : unit) : M response :=
  h ← get_host;
  c ← connect_hana 3 default_backoff;
  cur ← conn_cursor c;
  cur_execute cur (SelectAll (SCHEMA h));;
  rows ← cur_fetchall cur;
  cur_close cur;;
  conn_close c;;
  products ← mapM product_json rows;
  mret (jsonify (JDict [("products", JList products)])).

Definition list_products : unit -> M response := api_ok list_products_body.

(** Line 109: [r[0] if r and r[0] is not None else 0]. *)
Definition max_id_of (r : option (list json)) : json :=
  match r with
  | Some (v :: _) =>
      match v with
      | JNull => JInt 0
      | _ => v
      end
  | _ => JInt 0
  end.

(** Lines 100-114. *)
Definition insert_product_body (_ : unit) : M response :=
  h ← get_host;
  payload ← get_json;
  n ← payload_get payload "name" JNull 104;
  d ← payload_get payload "description" (JStr "") 104;
  if negb (truthy n) then
    mret (Response 400 (JDict [("error", JStr "name_required")]))
  else
    c ← connect_hana 3 default_backoff;
    cur ← conn_cursor c;
    cur_execute cur (SelectMaxId (SCHEMA h));;
    r ← cur_fetchone cur;
    new_id ← plus_one (max_id_of r);
    cur_execute cur (InsertRow (SCHEMA h) new_id n d JNull);;
    conn_commit c;;
    cur_close cur;;
    conn_close c;;
    mret (Response 201 (JDict [("status", JStr "ok"); ("product_id", new_id)])).

Definition insert_product : unit -> M response := api_ok insert_product_body.

Definition is_none (v : json) : bool :=
  match v with
  | JNull => true
  | _ => false
  end.

(** Lines 116-126. *)
Definition update_product_body (nm : string) : M response :=
  h ← get_host;
  payload ← get_json;
  d ← payload_get payload "description" JNull 120;
  if is_none d then
    mret (Response 400 (JDict [("error", JStr "description_required")]))
  else
    c ← connect_hana 3 default_backoff;
    cur ← conn_cursor c;
    cur_execute cur (UpdateDescription (SCHEMA h) d (JStr nm));;
    conn_commit c;;
    rows ← cur_rowcount cur;
    cur_close cur;;
    conn_close c;;
    mret (jsonify (JDict [("status", JStr "ok"); ("rows_affected", JInt rows)])).

Definition update_product : string -> M response := api_ok update_product_body.

(** Lines 128-134. *)
Definition delete_product_body (nm : string) : M response :=
  h ← get_host;
  c ← connect_hana 3 default_backoff;
  cur ← conn_cursor c;
  cur_execute cur (DeleteByName (SCHEMA h) (JStr nm));;
  conn_commit c;;
  rows ← cur_rowcount cur;
  cur_close cur;;
  conn_close c;;
  mret (jsonify (JDict [("status", JStr "ok"); ("rows_affected", JInt rows)])).

Definition delete_product : string -> M response := api_ok delete_product_body.

(** ** Reading the log *)

Definition is_connect (ev : event) : bool :=
  match ev with
  | EvConnect _ => true
  | _ => false
  end.

Definition is_sleep (ev : event) : bool :=
  match ev with
  | EvSleep _ => true
  | _ => false
  end.

Definition is_close_of (c : conn) (ev : event) : bool :=
  match ev with
  | EvClose c' => Nat.eqb c c'
  | _ => false
  end.

(** The delays slept, in order. *)
Fixpoint sleeps (evs : list event) : list delay :=
  match evs with
  | [] => []
  | EvSleep d :: evs' => d :: sleeps evs'
  | _ :: evs' => sleeps evs'
  end.

Definition count_connects (evs : list event) : nat :=
  length (List.filter is_connect evs).

Definition count_closes (c : conn) (evs : list event) : nat :=
  length (List.filter (is_close_of c) evs).

(** ** The vocabulary of the properties *)

(** The two errors that [connect_hana] raises before it dials, and the
    one it raises when the attempts are used up. *)
Definition configuration_error (e : exn) : Prop :=
  e = driver_missing \/ e = config_missing.

Definition connection_error (e : exn) : Prop :=
  exists retries last, e = connect_failed retries last.

(** The calls of [k] failed attempts numbered from [i0]. *)
Definition retry_log (cfg : hana_config) (backoff : delay) (i0 : Z) (k : nat)
  : list event :=
  flat_map (fun i => [EvConnect cfg; EvSleep (delay_mul backoff i)])
           (seqZ i0 (Z.of_nat k)).

(** The error that [last] holds after [len] failed attempts. *)
Definition last_failure (w : world) (len : nat) (last : option exn) : option exn :=
  match len with
  | O => last
  | S n => connect_outcome (host w) (connects w + n)
  end.

Definition connection_error_body (e : exn) : json :=
  JDict [("error", JStr "connection_error"); ("message", JStr (exn_str e))].

Definition internal_body (e : exn) : json :=
  JDict [("error", JStr "internal"); ("message", JStr (exn_str e));
         ("trace", JStr (format_exception e))].

Definition dial_event (ev : event) : bool := is_connect ev || is_sleep ev.

(** [w'] is [w] after some [dbapi.connect] calls and sleeps. *)
Definition dialled (w w' : world) : Prop :=
  host w' = host w /\ table w' = table w /\ cursor w' = cursor w /\
  driver_calls w' = driver_calls w /\
  exists evs, calls w' = calls w ++ evs /\ Forall (fun ev => dial_event ev = true) evs.

(** The world after the calls [evs] on a session, the table and the
    cursor being left as [t] and [cs]. *)
Definition after_calls (w : world) (t : list row) (cs : cursor_state)
    (evs : list event) : world :=
  World (host w) t cs (connects w) (driver_calls w + length evs) (calls w ++ evs).

Definition entry_of (r : row) : json :=
  JDict [("product_id", JInt (product_id r)); ("name", name r);
         ("description", description r)].

Definition affected (nm : string) (t : list row) : Z :=
  Z.of_nat (length (List.filter (name_matches (JStr nm)) t)).

Definition redescribe (nm : string) (d : json) (r : row) : row :=
  if name_matches (JStr nm) r then Row (product_id r) (name r) d (vector r) else r.

(** The identifier that [insert_product] computes for a table. *)
Definition next_id (t : list row) : Z :=
  match max_id t with
  | JInt m => m + 1
  | _ => 1
  end.

Definition name_required : response :=
  Response 400 (JDict [("error", JStr "name_required")]).

Definition description_required : response :=
  Response 400 (JDict [("error", JStr "description_required")]).

(** The handler run [out] from [w] returns, and the calls it made hold
    exactly one [close] of the session [c]. *)
Definition returns_closed (w : world) (c : conn) (code : Z)
    (out : result response * world) : Prop :=
  exists resp w' evs,
    out = (Ok resp, w') /\ status resp = code /\
    calls w' = calls w ++ evs /\ count_closes c evs = 1%nat.

(** The answer of the envelope to an exception. *)
Definition envelope_of (e : exn) : response :=
  if isinstance e RuntimeError then Response 502 (connection_error_body e)
  else Response 500 (internal_body e).

(** A setting in which whatever the driver, the request parser and the
    probes raise is an [Exception]. *)
Definition benign (h : setting) : Prop :=
  (forall n e, connect_outcome h n = Some e -> isinstance e Exception = true) /\
  (forall n e, driver_fault h n = Some e -> isinstance e Exception = true) /\
  (forall e, request_json h = Raise e -> isinstance e Exception = true) /\
  (forall e, tcp_probe h = TcpConnectRaises e \/ tcp_probe h = TcpCloseRaises e ->
             isinstance e Exception = true) /\
  (forall c e, tls_probe h = TlsRaises e \/ tls_probe h = TlsCloseRaises c e ->
               isinstance e Exception = true).

(** Whatever [time.sleep] raises is an [Exception]. *)
Definition sleep_benign : Prop :=
  forall d e, sleep_check d = Some e -> isinstance e Exception = true.

(** Run in the setting [h], [m] keeps the setting and, when the setting
    and [time.sleep] are benign, raises [Exception]s only. *)
Definition tame_at {A} (h : setting) (m : M A) : Prop :=
  forall w r w', host w = h -> m w = (r, w') ->
    host w' = h /\
    (benign h -> sleep_benign -> forall e, r = Raise e -> isinstance e Exception = true).

(** The error of [payload.get] on a body that is no JSON object. *)
Definition no_get (payload : json) (line : Z) : exn :=
  Exn AttributeError
    ("'" +:+ type_name payload +:+ "' object has no attribute 'get'")
    (stack line).

Definition is_dict (v : json) : bool :=
  match v with
  | JDict _ => true
  | _ => false
  end.

(** [m] closes no session. *)
Definition quiet {A} (m : M A) : Prop :=
  forall w r w', m w = (r, w') ->
    exists evs, calls w' = calls w ++ evs /\ forall c, count_closes c evs = 0%nat.

(** [m] closes the session [c] at most once and no other session, and
    when it returns it has closed [c]. *)
Definition closing {A} (c : conn) (m : M A) : Prop :=
  forall w r w', m w = (r, w') ->
    exists evs,
      calls w' = calls w ++ evs /\
      (count_closes c evs <= 1)%nat /\
      (forall c', c' <> c -> count_closes c' evs = 0%nat) /\
      (forall a, r = Ok a -> count_closes c evs = 1%nat).

(** The run [out] of a handler from [w] closed the session [c] at most
    once and no other session, and exactly once when the answer is 200
    or 201. *)
Definition closed_at_most_once (w : world) (c : conn)
    (out : result response * world) : Prop :=
  exists evs,
    calls (snd out) = calls w ++ evs /\
    (count_closes c evs <= 1)%nat /\
    (forall c', c' <> c -> count_closes c' evs = 0%nat) /\
    (forall resp, fst out = Ok resp -> status resp = 200 \/ status resp = 201 ->
                  count_closes c evs = 1%nat).



(* ================================================================== *)
(** * Properties *)
(* ================================================================== *)

(** ** Running monadic code *)

Lemma bind_ok {A B} (m : M A) (f : A -> M B) w a w' :
  m w = (Ok a, w') -> (m ≫= f) w = f a w'.
Proof. intros H. unfold mbind, M_bind. now rewrite H. Qed.

Lemma bind_raise {A B} (m : M A) (f : A -> M B) w e w' :
  m w = (Raise e, w') -> (m ≫= f) w = (Raise e, w').
Proof. intros H. unfold mbind, M_bind. now rewrite H. Qed.

Ltac run := unfold mbind, M_bind, mret, M_ret, raise, get_host, try_ in *; cbn in *.

(** [hana_cfg] only reads. *)
Lemma hana_cfg_pure w r w' : hana_cfg w = (r, w') -> w' = w.
Proof.
  unfold hana_cfg. run.
  destruct (environ (host w) !! "HANA_PORT") as [s|]; cbn.
  - destruct (int_of_str s); cbn; congruence.
  - congruence.
Qed.

(** ** Configuration errors *)

(** C3. When the configuration that [hana_cfg] returns lacks the address,
    the user or the password ([None] or the empty string), [connect_hana]
    raises a configuration error at once: the world is left as it was, so
    no [dbapi.connect] call was made and nothing was slept. *)
Theorem connect_hana_config_missing (retries : Z) (backoff : delay) w cfg :
  hana_cfg w = (Ok cfg, w) ->
  blank (address cfg) || blank (user cfg) || blank (password cfg) = true ->
  exists e,
    connect_hana retries backoff w = (Raise e, w) /\
    configuration_error e /\
    exn_type e = RuntimeError.
Proof.
  intros Hcfg Hblank. unfold connect_hana.
  rewrite (bind_ok get_host _ w (host w) w) by reflexivity.
  destruct (dbapi_loaded (host w)) eqn:Hl; cbn [negb].
  - exists config_missing. split; [|split; [now right|reflexivity]].
    rewrite (bind_ok hana_cfg _ w cfg w Hcfg).
    now rewrite Hblank.
  - exists driver_missing. split; [|split; [now left|reflexivity]].
    reflexivity.
Qed.

(** ** The retry loop *)

Lemma seqZ_S (i0 : Z) (n : nat) :
  seqZ i0 (Z.of_nat (S n)) = i0 :: seqZ (i0 + 1) (Z.of_nat n).
Proof.
  rewrite seqZ_cons by lia. f_equal. f_equal; lia.
Qed.

Lemma retry_log_S cfg backoff i0 k :
  retry_log cfg backoff i0 (S k) =
  EvConnect cfg :: EvSleep (delay_mul backoff i0) :: retry_log cfg backoff (i0 + 1) k.
Proof. unfold retry_log. now rewrite seqZ_S. Qed.

Lemma count_connects_retry_log cfg backoff k : forall i0 tl,
  count_connects (retry_log cfg backoff i0 k ++ tl) = (k + count_connects tl)%nat.
Proof.
  induction k as [|k IH]; intros i0 tl; [reflexivity|].
  rewrite retry_log_S. unfold count_connects in *. cbn.
  now rewrite IH.
Qed.

Lemma sleeps_retry_log cfg backoff k : forall i0 tl,
  sleeps (retry_log cfg backoff i0 k ++ tl) =
  map (delay_mul backoff) (seqZ i0 (Z.of_nat k)) ++ sleeps tl.
Proof.
  induction k as [|k IH]; intros i0 tl; [reflexivity|].
  rewrite retry_log_S, seqZ_S. cbn. now rewrite IH.
Qed.

(** One failed attempt: the call, then the sleep. *)
Lemma connect_loop_failed cfg backoff i range last w e :
  connect_outcome (host w) (connects w) = Some e ->
  isinstance e Exception = true ->
  sleep_check (delay_mul backoff i) = None ->
  connect_loop cfg backoff (i :: range) last w =
  connect_loop cfg backoff range (Some e)
    (World (host w) (table w) (cursor w) (S (connects w)) (driver_calls w)
           ((calls w ++ [EvConnect cfg]) ++ [EvSleep (delay_mul backoff i)])).
Proof.
  intros Ho He Hs. cbn [connect_loop].
  unfold mbind, M_bind, try_, dbapi_connect. rewrite Ho, He.
  unfold time_sleep. rewrite Hs. reflexivity.
Qed.

(** [k] failed attempts and then a session. *)
Lemma connect_loop_retry cfg backoff (k : nat) : forall (len : nat) i0 last w,
  (k < len)%nat ->
  (forall j, (j < k)%nat -> exists e,
      connect_outcome (host w) (connects w + j) = Some e /\
      isinstance e Exception = true) ->
  connect_outcome (host w) (connects w + k) = None ->
  (forall j, (j < k)%nat -> sleep_check (delay_mul backoff (i0 + Z.of_nat j)) = None) ->
  connect_loop cfg backoff (seqZ i0 (Z.of_nat len)) last w =
  (Ok (inl (connects w + k)%nat),
   World (host w) (table w) (cursor w) (connects w + S k) (driver_calls w)
         (calls w ++ retry_log cfg backoff i0 k ++ [EvConnect cfg])).
Proof.
  induction k as [|k IH]; intros len i0 last w Hlen Hfail Hok Hsleep.
  - destruct len as [|len]; [lia|]. rewrite seqZ_S. cbn [connect_loop].
    unfold mbind, M_bind, try_, dbapi_connect.
    rewrite Nat.add_0_r in Hok. rewrite Hok. cbn.
    now rewrite Nat.add_0_r, Nat.add_1_r.
  - destruct len as [|len]; [lia|]. rewrite seqZ_S.
    destruct (Hfail 0%nat ltac:(lia)) as (e & Ho & He).
    rewrite Nat.add_0_r in Ho.
    rewrite (connect_loop_failed cfg backoff i0 _ last w e Ho He).
    2:{ specialize (Hsleep 0%nat ltac:(lia)). now rewrite Z.add_0_r in Hsleep. }
    rewrite (IH len); cbn [host connects table cursor driver_calls calls].
    + rewrite retry_log_S.
      replace (S (connects w) + k)%nat with (connects w + S k)%nat by lia.
      replace (S (connects w) + S k)%nat with (connects w + S (S k))%nat by lia.
      now rewrite <- !app_assoc.
    + lia.
    + intros j Hj. destruct (Hfail (S j) ltac:(lia)) as (e' & Ho' & He').
      exists e'. split; [|assumption]. rewrite <- Ho'. f_equal. lia.
    + rewrite <- Hok. f_equal. lia.
    + intros j Hj. specialize (Hsleep (S j) ltac:(lia)).
      rewrite <- Hsleep. do 2 f_equal. lia.
Qed.

(** Every attempt of the range fails. *)
Lemma connect_loop_exhaust cfg backoff (len : nat) : forall i0 last w,
  (forall j, (j < len)%nat -> exists e,
      connect_outcome (host w) (connects w + j) = Some e /\
      isinstance e Exception = true) ->
  (forall j, (j < len)%nat -> sleep_check (delay_mul backoff (i0 + Z.of_nat j)) = None) ->
  connect_loop cfg backoff (seqZ i0 (Z.of_nat len)) last w =
  (Ok (inr (last_failure w len last)),
   World (host w) (table w) (cursor w) (connects w + len) (driver_calls w)
         (calls w ++ retry_log cfg backoff i0 len)).
Proof.
  induction len as [|len IH]; intros i0 last w Hfail Hsleep.
  - cbn. rewrite Nat.add_0_r, app_nil_r. now destruct w.
  - rewrite seqZ_S.
    destruct (Hfail 0%nat ltac:(lia)) as (e & Ho & He).
    rewrite Nat.add_0_r in Ho.
    rewrite (connect_loop_failed cfg backoff i0 _ last w e Ho He).
    2:{ specialize (Hsleep 0%nat ltac:(lia)). now rewrite Z.add_0_r in Hsleep. }
    rewrite IH; cbn [host connects table cursor driver_calls calls].
    + rewrite retry_log_S.
      replace (S (connects w) + len)%nat with (connects w + S len)%nat by lia.
      rewrite <- !app_assoc. f_equal. f_equal. f_equal.
      destruct len as [|len]; cbn.
      * now rewrite Nat.add_0_r.
      * f_equal. lia.
    + intros j Hj. destruct (Hfail (S j) ltac:(lia)) as (e' & Ho' & He').
      exists e'. split; [|assumption]. rewrite <- Ho'. f_equal. lia.
    + intros j Hj. specialize (Hsleep (S j) ltac:(lia)).
      rewrite <- Hsleep. do 2 f_equal. lia.
Qed.

(** With the driver loaded and a complete configuration, [connect_hana]
    is its loop. *)
Lemma connect_hana_dials (retries : Z) backoff w cfg :
  dbapi_loaded (host w) = true ->
  hana_cfg w = (Ok cfg, w) ->
  blank (address cfg) || blank (user cfg) || blank (password cfg) = false ->
  connect_hana retries backoff w =
  match connect_loop cfg backoff (seqZ 1 retries) None w with
  | (Ok (inl c), w') => (Ok c, w')
  | (Ok (inr (Some last)), w') => (Raise (connect_failed retries last), w')
  | (Ok (inr None), w') =>
      (Raise (Exn AttributeError
                "'NoneType' object has no attribute '__traceback__'" (stack 44)), w')
  | (Raise e, w') => (Raise e, w')
  end.
Proof.
  intros Hl Hcfg Hblank. unfold connect_hana.
  rewrite (bind_ok get_host _ w (host w) w) by reflexivity.
  rewrite Hl. cbn [negb].
  rewrite (bind_ok hana_cfg _ w cfg w Hcfg). rewrite Hblank.
  unfold mbind, M_bind.
  destruct (connect_loop cfg backoff (seqZ 1 retries) None w) as [[[c|[last|]]|e] w'];
    reflexivity.
Qed.

(** C2. With the driver loaded and a complete configuration, when the
    first [k <= 2] calls of [dbapi.connect] raise and the next one returns
    a session, [connect_hana 3 backoff] returns that session, the one of
    attempt [k + 1].  The calls it makes are [k] times a failed
    [dbapi.connect] followed by a sleep and then the successful
    [dbapi.connect], with nothing after it: [k + 1] attempts in all and
    [k] sleeps, of [backoff * 1], ..., [backoff * k] in this order. *)
Theorem connect_hana_retry (k : nat) (backoff : delay) w cfg :
  (k <= 2)%nat ->
  dbapi_loaded (host w) = true ->
  hana_cfg w = (Ok cfg, w) ->
  blank (address cfg) || blank (user cfg) || blank (password cfg) = false ->
  (forall j, (j < k)%nat -> exists e,
      connect_outcome (host w) (connects w + j) = Some e /\
      isinstance e Exception = true) ->
  connect_outcome (host w) (connects w + k) = None ->
  (forall j, (j < k)%nat -> sleep_check (delay_mul backoff (1 + Z.of_nat j)) = None) ->
  exists w' evs,
    connect_hana 3 backoff w = (Ok (connects w + k)%nat, w') /\
    calls w' = calls w ++ evs /\
    evs = retry_log cfg backoff 1 k ++ [EvConnect cfg] /\
    connects w' = (connects w + S k)%nat /\
    count_connects evs = S k /\
    sleeps evs = map (delay_mul backoff) (seqZ 1 (Z.of_nat k)) /\
    length (sleeps evs) = k.
Proof.
  intros Hk Hl Hcfg Hblank Hfail Hok Hsleep.
  eexists _, (retry_log cfg backoff 1 k ++ [EvConnect cfg]).
  split.
  { rewrite (connect_hana_dials 3 backoff w cfg Hl Hcfg Hblank).
    change (seqZ 1 3) with (seqZ 1 (Z.of_nat 3)).
    rewrite (connect_loop_retry cfg backoff k 3 1 None w); try assumption; [|lia].
    reflexivity. }
  cbn [calls connects].
  assert (Hs : sleeps (retry_log cfg backoff 1 k ++ [EvConnect cfg]) =
               map (delay_mul backoff) (seqZ 1 (Z.of_nat k))).
  { rewrite sleeps_retry_log. cbn. now rewrite app_nil_r. }
  repeat split; try reflexivity.
  - rewrite count_connects_retry_log. cbn. lia.
  - exact Hs.
  - rewrite Hs, length_map, length_seqZ. lia.
Qed.

(** C1, as the code behaves.  With the driver loaded and a complete
    configuration, when the three calls of [dbapi.connect] raise,
    [connect_hana 3 backoff] makes exactly three attempts and raises the
    connection error that carries the count 3 and the error of the third
    attempt with its trace; but it sleeps after every failed attempt, the
    last one too: three sleeps, of [backoff * 1], [backoff * 2] and
    [backoff * 3]. *)
Theorem connect_hana_exhausted (backoff : delay) w cfg :
  dbapi_loaded (host w) = true ->
  hana_cfg w = (Ok cfg, w) ->
  blank (address cfg) || blank (user cfg) || blank (password cfg) = false ->
  (forall j, (j < 3)%nat -> exists e,
      connect_outcome (host w) (connects w + j) = Some e /\
      isinstance e Exception = true) ->
  (forall j, (j < 3)%nat -> sleep_check (delay_mul backoff (1 + Z.of_nat j)) = None) ->
  exists last w' evs,
    connect_outcome (host w) (connects w + 2) = Some last /\
    connect_hana 3 backoff w = (Raise (connect_failed 3 last), w') /\
    calls w' = calls w ++ evs /\
    evs = [EvConnect cfg; EvSleep (delay_mul backoff 1);
           EvConnect cfg; EvSleep (delay_mul backoff 2);
           EvConnect cfg; EvSleep (delay_mul backoff 3)] /\
    count_connects evs = 3%nat /\
    sleeps evs = [delay_mul backoff 1; delay_mul backoff 2; delay_mul backoff 3].
Proof.
  intros Hl Hcfg Hblank Hfail Hsleep.
  destruct (Hfail 2%nat ltac:(lia)) as (last & Hlast & _).
  exists last. eexists _, _. split; [exact Hlast|]. split.
  { rewrite (connect_hana_dials 3 backoff w cfg Hl Hcfg Hblank).
    change (seqZ 1 3) with (seqZ 1 (Z.of_nat 3)).
    rewrite (connect_loop_exhaust cfg backoff 3 1 None w Hfail Hsleep).
    cbn [last_failure]. rewrite Hlast. reflexivity. }
  cbn [calls]. repeat split; reflexivity.
Qed.

(** ** The error envelope *)

Lemma format_exception_nonempty e : format_exception e <> "".
Proof. unfold format_exception. cbn. discriminate. Qed.

Lemma configuration_error_runtime e :
  configuration_error e -> exn_type e = RuntimeError.
Proof. now intros [-> | ->]. Qed.

Lemma connection_error_runtime e :
  connection_error e -> exn_type e = RuntimeError.
Proof. now intros (retries & last & ->). Qed.

Lemma api_ok_returns {A} (fn : A -> M response) a w resp w' :
  fn a w = (Ok resp, w') -> api_ok fn a w = (Ok resp, w').
Proof. intros H. unfold api_ok, mbind, M_bind, try_. now rewrite H. Qed.

Lemma api_ok_runtime {A} (fn : A -> M response) a w e w' :
  fn a w = (Raise e, w') ->
  isinstance e RuntimeError = true ->
  api_ok fn a w = (Ok (Response 502 (connection_error_body e)), w').
Proof. intros H Hr. unfold api_ok, mbind, M_bind, try_. now rewrite H, Hr. Qed.

Lemma api_ok_internal {A} (fn : A -> M response) a w e w' :
  fn a w = (Raise e, w') ->
  isinstance e RuntimeError = false ->
  isinstance e Exception = true ->
  api_ok fn a w = (Ok (Response 500 (internal_body e)), w').
Proof.
  intros H Hr He. unfold api_ok, mbind, M_bind, try_. now rewrite H, Hr, He.
Qed.

(** C4, amended.  When a wrapped handler raises an exception [e] that is
    an [Exception], the wrapper returns a response and raises nothing.
    If [e] is a [RuntimeError] (or of a subclass), which every
    configuration error and every connection error is, the response is
    502 with the [connection_error] body; otherwise it is 500 with the
    [internal] body, whose trace is not empty. *)
Theorem api_ok_envelope {A} (fn : A -> M response) a w e w' :
  fn a w = (Raise e, w') ->
  isinstance e Exception = true ->
  (configuration_error e \/ connection_error e ->
     api_ok fn a w = (Ok (Response 502 (connection_error_body e)), w')) /\
  (isinstance e RuntimeError = true ->
     api_ok fn a w = (Ok (Response 502 (connection_error_body e)), w')) /\
  (isinstance e RuntimeError = false ->
     api_ok fn a w = (Ok (Response 500 (internal_body e)), w') /\
     format_exception e <> "") /\
  (exists resp, api_ok fn a w = (Ok resp, w')).
Proof.
  intros Hfn He. repeat split.
  - intros Hc. apply api_ok_runtime; [assumption|].
    unfold isinstance.
    destruct Hc as [Hc | Hc];
      [rewrite (configuration_error_runtime e Hc)
      |rewrite (connection_error_runtime e Hc)]; reflexivity.
  - intros Hr. now apply api_ok_runtime.
  - now apply api_ok_internal.
  - apply format_exception_nonempty.
  - destruct (isinstance e RuntimeError) eqn:Hr.
    + eexists. apply api_ok_runtime; eassumption.
    + eexists. apply api_ok_internal; eassumption.
Qed.

(** The only exception that [hana_cfg] raises is the [ValueError] of
    [int]. *)
Lemma hana_cfg_raises w e w' :
  hana_cfg w = (Raise e, w') -> exn_type e = ValueError.
Proof.
  unfold hana_cfg. run.
  destruct (environ (host w) !! "HANA_PORT") as [s|]; cbn.
  - destruct (int_of_str s); cbn; [discriminate|].
    intros [= <- _]. reflexivity.
  - discriminate.
Qed.

Lemma connect_failed_str_head retries last :
  exists rest, exn_str (connect_failed retries last) = String "U" rest.
Proof. unfold connect_failed. cbn. eexists. reflexivity. Qed.

(** C5, amended.  A connection error and a configuration error are of
    the same kind, [RuntimeError]; they differ in their message text
    only.  That kind is not the kind of the error that reading the
    configuration raises, a [ValueError]. *)
Theorem connection_error_kind e1 e2 :
  connection_error e1 ->
  configuration_error e2 ->
  exn_type e1 = RuntimeError /\
  exn_type e2 = RuntimeError /\
  exn_type e1 = exn_type e2 /\
  exn_str e1 <> exn_str e2 /\
  (forall w e w', hana_cfg w = (Raise e, w') ->
     exn_type e <> exn_type e1 /\ isinstance e RuntimeError = false).
Proof.
  intros H1 H2.
  pose proof (connection_error_runtime e1 H1) as T1.
  pose proof (configuration_error_runtime e2 H2) as T2.
  split; [exact T1|]. split; [exact T2|]. split; [congruence|]. split.
  - destruct H1 as (retries & last & ->).
    destruct (connect_failed_str_head retries last) as (rest & ->).
    destruct H2 as [-> | ->]; cbn; discriminate.
  - intros w e w' Hraise. apply hana_cfg_raises in Hraise. split.
    + congruence.
    + unfold isinstance. now rewrite Hraise.
Qed.

(** ** What [connect_hana] leaves untouched *)

Lemma dialled_refl w : dialled w w.
Proof.
  repeat split. exists []. split; [now rewrite app_nil_r | constructor].
Qed.

Lemma dialled_trans w1 w2 w3 : dialled w1 w2 -> dialled w2 w3 -> dialled w1 w3.
Proof.
  intros (Hh & Ht & Hc & Hd & evs & Hl & Hf) (Hh' & Ht' & Hc' & Hd' & evs' & Hl' & Hf').
  repeat split; try congruence.
  exists (evs ++ evs'). split.
  - now rewrite Hl', Hl, app_assoc.
  - now apply Forall_app.
Qed.

Lemma dialled_log w ev n :
  dial_event ev = true ->
  dialled w (World (host w) (table w) (cursor w) n (driver_calls w) (calls w ++ [ev])).
Proof.
  intros Hev. repeat split. exists [ev]. split; [reflexivity|].
  now repeat constructor.
Qed.

Lemma connect_loop_dialled cfg backoff range : forall last w r w',
  connect_loop cfg backoff range last w = (r, w') -> dialled w w'.
Proof.
  induction range as [|i range IH]; intros last w r w' Hrun.
  - cbn in Hrun. injection Hrun as _ <-. apply dialled_refl.
  - cbn [connect_loop] in Hrun.
    unfold mbind, M_bind, try_, dbapi_connect in Hrun.
    pose proof (dialled_log w (EvConnect cfg) (S (connects w)) eq_refl) as Hd.
    destruct (connect_outcome (host w) (connects w)) as [e|].
    + destruct (isinstance e Exception).
      * unfold time_sleep in Hrun at 1.
        destruct (sleep_check (delay_mul backoff i)).
        -- injection Hrun as _ <-. exact Hd.
        -- apply IH in Hrun. refine (dialled_trans _ _ _ Hd (dialled_trans _ _ _ _ Hrun)).
           apply (dialled_log _ (EvSleep (delay_mul backoff i)) _ eq_refl).
      * injection Hrun as _ <-. exact Hd.
    + injection Hrun as _ <-. exact Hd.
Qed.

Lemma connect_hana_dialled retries backoff w r w' :
  connect_hana retries backoff w = (r, w') -> dialled w w'.
Proof.
  unfold connect_hana. run.
  destruct (dbapi_loaded (host w)); cbn.
  2:{ intros [= _ <-]. apply dialled_refl. }
  destruct (hana_cfg w) as [[cfg|e] w1] eqn:Hcfg.
  2:{ intros [= _ <-]. apply hana_cfg_pure in Hcfg as ->. apply dialled_refl. }
  apply hana_cfg_pure in Hcfg as ->.
  destruct (blank (address cfg) || blank (user cfg) || blank (password cfg)).
  { intros [= _ <-]. apply dialled_refl. }
  destruct (connect_loop cfg backoff (seqZ 1 retries) None w) as [[[c|[last|]]|e] w2] eqn:Hloop;
    apply connect_loop_dialled in Hloop; intros [= _ <-]; exact Hloop.
Qed.

Lemma count_closes_app c evs1 evs2 :
  count_closes c (evs1 ++ evs2) = (count_closes c evs1 + count_closes c evs2)%nat.
Proof. unfold count_closes. now rewrite List.filter_app, length_app. Qed.

Lemma count_closes_dial c evs :
  Forall (fun ev => dial_event ev = true) evs -> count_closes c evs = 0%nat.
Proof.
  induction 1 as [|ev evs Hev _ IH]; [reflexivity|].
  unfold count_closes in *. cbn. destruct ev; try discriminate; exact IH.
Qed.

(** ** The handlers when nothing fails *)

Lemma mapM_product_json (rows : list row) w :
  mapM product_json
       (map (fun r => [JInt (product_id r); name r; description r]) rows) w =
  (Ok (map entry_of rows), w).
Proof.
  induction rows as [|r rows IH]; [reflexivity|].
  cbn [map mapM].
  rewrite (bind_ok (product_json _) _ w (entry_of r) w) by reflexivity.
  now rewrite (bind_ok _ _ _ _ _ IH).
Qed.

Ltac run_driver Hfault :=
  unfold conn_cursor, cur_execute, cur_fetchall, cur_fetchone, cur_rowcount,
    conn_commit, cur_close, conn_close, driver_call, apply_statement,
    take_all, take_one, mbind, M_bind, mret, M_ret;
  cbn -[merge_sort mapM]; rewrite ?Hfault; cbn -[merge_sort mapM].

Ltac same_world :=
  unfold after_calls; cbn [length]; rewrite <- ?app_assoc; cbn [app];
  f_equal; f_equal; lia.

Lemma list_products_runs w c w1 :
  connect_hana 3 default_backoff w = (Ok c, w1) ->
  (forall i, driver_fault (host w1) i = None) ->
  list_products_body tt w =
  (Ok (jsonify (JDict [("products", JList (map entry_of (merge_sort row_le (table w1))))])),
   after_calls w1 (table w1) (CursorState [] (-1))
     [EvCursor c; EvExecute c (SelectAll (SCHEMA (host w))); EvFetchall c;
      EvCursorClose c; EvClose c]).
Proof.
  intros Hconn Hfault. unfold list_products_body.
  rewrite (bind_ok get_host _ w (host w) w) by reflexivity.
  rewrite (bind_ok _ _ _ _ _ Hconn).
  set (entries := mapM product_json).
  run_driver Hfault. subst entries.
  rewrite mapM_product_json. same_world.
Qed.

Lemma delete_product_runs nm w c w1 :
  connect_hana 3 default_backoff w = (Ok c, w1) ->
  (forall i, driver_fault (host w1) i = None) ->
  delete_product_body nm w =
  (Ok (jsonify (JDict [("status", JStr "ok");
                       ("rows_affected", JInt (affected nm (table w1)))])),
   after_calls w1
     (List.filter (fun r => negb (name_matches (JStr nm) r)) (table w1))
     (CursorState [] (affected nm (table w1)))
     [EvCursor c; EvExecute c (DeleteByName (SCHEMA (host w)) (JStr nm));
      EvCommit c; EvCursorClose c; EvClose c]).
Proof.
  intros Hconn Hfault. unfold delete_product_body.
  rewrite (bind_ok get_host _ w (host w) w) by reflexivity.
  rewrite (bind_ok _ _ _ _ _ Hconn).
  run_driver Hfault. same_world.
Qed.

Lemma get_json_dict w kvs :
  request_json (host w) = Ok (JDict kvs) -> get_json w = (Ok (JDict kvs), w).
Proof. intros H. unfold get_json. now rewrite H. Qed.

Lemma update_product_runs nm w kvs d c w1 :
  request_json (host w) = Ok (JDict kvs) ->
  dict_lookup "description" kvs = Some d ->
  is_none d = false ->
  connect_hana 3 default_backoff w = (Ok c, w1) ->
  (forall i, driver_fault (host w1) i = None) ->
  update_product_body nm w =
  (Ok (jsonify (JDict [("status", JStr "ok");
                       ("rows_affected", JInt (affected nm (table w1)))])),
   after_calls w1 (map (redescribe nm d) (table w1))
     (CursorState [] (affected nm (table w1)))
     [EvCursor c; EvExecute c (UpdateDescription (SCHEMA (host w)) d (JStr nm));
      EvCommit c; EvCursorClose c; EvClose c]).
Proof.
  intros Hreq Hd Hnone Hconn Hfault. unfold update_product_body.
  rewrite (bind_ok get_host _ w (host w) w) by reflexivity.
  rewrite (bind_ok _ _ _ _ _ (get_json_dict w kvs Hreq)).
  unfold payload_get. rewrite Hd. cbn [default from_option id].
  rewrite (bind_ok (mret d) _ w d w) by reflexivity.
  rewrite Hnone.
  rewrite (bind_ok _ _ _ _ _ Hconn).
  run_driver Hfault. same_world.
Qed.

Lemma insert_product_runs w kvs n c w1 :
  request_json (host w) = Ok (JDict kvs) ->
  dict_lookup "name" kvs = Some n ->
  truthy n = true ->
  connect_hana 3 default_backoff w = (Ok c, w1) ->
  (forall i, driver_fault (host w1) i = None) ->
  let d := default (JStr "") (dict_lookup "description" kvs) in
  let new := next_id (table w1) in
  insert_product_body tt w =
  (Ok (Response 201 (JDict [("status", JStr "ok"); ("product_id", JInt new)])),
   after_calls w1 (table w1 ++ [Row new n d JNull]) (CursorState [] 1)
     [EvCursor c; EvExecute c (SelectMaxId (SCHEMA (host w))); EvFetchone c;
      EvExecute c (InsertRow (SCHEMA (host w)) (JInt new) n d JNull);
      EvCommit c; EvCursorClose c; EvClose c]).
Proof.
  intros Hreq Hn Htrue Hconn Hfault d new. unfold insert_product_body.
  rewrite (bind_ok get_host _ w (host w) w) by reflexivity.
  rewrite (bind_ok _ _ _ _ _ (get_json_dict w kvs Hreq)).
  unfold payload_get. rewrite Hn. cbn [default from_option id].
  rewrite (bind_ok (mret n) _ w n w) by reflexivity.
  rewrite (bind_ok (mret _) _ w d w) by reflexivity.
  rewrite Htrue. cbn [negb].
  rewrite (bind_ok _ _ _ _ _ Hconn).
  subst new. unfold next_id.
  destruct (table w1) as [|r t] eqn:Ht.
  - run_driver Hfault. rewrite Ht. cbn. rewrite ?Hfault. cbn. same_world.
  - run_driver Hfault. rewrite Ht. cbn. rewrite ?Hfault. cbn. same_world.
Qed.

(** ** Requests that fail validation *)

Lemma insert_product_rejects w kvs :
  request_json (host w) = Ok (JDict kvs) ->
  truthy (default JNull (dict_lookup "name" kvs)) = false ->
  insert_product_body tt w = (Ok name_required, w).
Proof.
  intros Hreq Hfalse. unfold insert_product_body.
  rewrite (bind_ok get_host _ w (host w) w) by reflexivity.
  rewrite (bind_ok _ _ _ _ _ (get_json_dict w kvs Hreq)).
  unfold payload_get.
  rewrite (bind_ok (mret _) _ w (default JNull (dict_lookup "name" kvs)) w)
    by reflexivity.
  rewrite (bind_ok (mret _) _ w _ w) by reflexivity.
  now rewrite Hfalse.
Qed.

Lemma update_product_rejects nm w kvs :
  request_json (host w) = Ok (JDict kvs) ->
  is_none (default JNull (dict_lookup "description" kvs)) = true ->
  update_product_body nm w = (Ok description_required, w).
Proof.
  intros Hreq Hnone. unfold update_product_body.
  rewrite (bind_ok get_host _ w (host w) w) by reflexivity.
  rewrite (bind_ok _ _ _ _ _ (get_json_dict w kvs Hreq)).
  unfold payload_get.
  rewrite (bind_ok (mret _) _ w (default JNull (dict_lookup "description" kvs)) w)
    by reflexivity.
  now rewrite Hnone.
Qed.

(** ** Sessions are closed once *)

Lemma closed_after w w1 c code resp t cs evs :
  dialled w w1 ->
  status resp = code ->
  count_closes c evs = 1%nat ->
  returns_closed w c code (Ok resp, after_calls w1 t cs evs).
Proof.
  intros (_ & _ & _ & _ & evs0 & Hl & Hf) Hs Hc.
  exists resp, (after_calls w1 t cs evs), (evs0 ++ evs).
  repeat split; [assumption| |].
  - cbn. now rewrite Hl, app_assoc.
  - now rewrite count_closes_app, (count_closes_dial c evs0 Hf), Hc.
Qed.

Ltac count_it := unfold count_closes; cbn; rewrite ?Nat.eqb_refl; reflexivity.

(** C6, amended.  Let the handler's [connect_hana] return the session
    [c], and let no call on the session or its cursor raise.  Then each of
    the four resource handlers returns, and the calls it made hold
    exactly one [close] of [c].  A request that fails validation (no
    name for the insertion, no description for the update) returns 400
    and leaves the world as it was: no session is opened. *)
Theorem handlers_close_once w c w1 :
  connect_hana 3 default_backoff w = (Ok c, w1) ->
  (forall i, driver_fault (host w) i = None) ->
  returns_closed w c 200 (list_products tt w) /\
  (forall nm, returns_closed w c 200 (delete_product nm w)) /\
  (forall kvs,
     request_json (host w) = Ok (JDict kvs) ->
     if truthy (default JNull (dict_lookup "name" kvs))
     then returns_closed w c 201 (insert_product tt w)
     else exists resp, insert_product tt w = (Ok resp, w) /\ status resp = 400) /\
  (forall nm kvs,
     request_json (host w) = Ok (JDict kvs) ->
     if is_none (default JNull (dict_lookup "description" kvs))
     then exists resp, update_product nm w = (Ok resp, w) /\ status resp = 400
     else returns_closed w c 200 (update_product nm w)).
Proof.
  intros Hconn Hfault.
  pose proof (connect_hana_dialled _ _ _ _ _ Hconn) as Hd.
  assert (Hfault1 : forall i, driver_fault (host w1) i = None).
  { destruct Hd as (-> & _). exact Hfault. }
  split; [|split; [|split]].
  - unfold list_products.
    rewrite (api_ok_returns _ _ _ _ _ (list_products_runs w c w1 Hconn Hfault1)).
    apply closed_after; [assumption|reflexivity|count_it].
  - intros nm. unfold delete_product.
    rewrite (api_ok_returns _ _ _ _ _ (delete_product_runs nm w c w1 Hconn Hfault1)).
    apply closed_after; [assumption|reflexivity|count_it].
  - intros kvs Hreq. unfold insert_product.
    destruct (truthy (default JNull (dict_lookup "name" kvs))) eqn:Htrue.
    + destruct (dict_lookup "name" kvs) as [n|] eqn:Hn; [|discriminate].
      rewrite (api_ok_returns _ _ _ _ _
                 (insert_product_runs w kvs n c w1 Hreq Hn Htrue Hconn Hfault1)).
      apply closed_after; [assumption|reflexivity|count_it].
    + exists name_required. split; [|reflexivity].
      apply api_ok_returns. exact (insert_product_rejects w kvs Hreq Htrue).
  - intros nm kvs Hreq. unfold update_product.
    destruct (is_none (default JNull (dict_lookup "description" kvs))) eqn:Hnone.
    + exists description_required. split; [|reflexivity].
      apply api_ok_returns. exact (update_product_rejects nm w kvs Hreq Hnone).
    + destruct (dict_lookup "description" kvs) as [d|] eqn:Hdesc; [|discriminate].
      rewrite (api_ok_returns _ _ _ _ _
                 (update_product_runs nm w kvs d c w1 Hreq Hdesc Hnone Hconn Hfault1)).
      apply closed_after; [assumption|reflexivity|count_it].
Qed.

(** ** Insertion *)

Lemma fold_max_spec (x : Z) (l : list Z) :
  x <= fold_right Z.max x l /\
  (forall y, In y l -> y <= fold_right Z.max x l) /\
  (fold_right Z.max x l = x \/ In (fold_right Z.max x l) l).
Proof.
  induction l as [|a l (IH1 & IH2 & IH3)]; cbn.
  - repeat split; [lia|tauto|now left].
  - repeat split.
    + lia.
    + intros y [-> | Hy]; [lia|]. specialize (IH2 y Hy). lia.
    + destruct (Z.max_spec a (fold_right Z.max x l)) as [[_ ->] | [_ ->]].
      * destruct IH3 as [-> | Hin]; [now left | right; now right].
      * right. now left.
Qed.

(** [next_id t] is 1 for the empty table, and otherwise one more than the
    largest identifier of [t]. *)
Lemma next_id_spec (t : list row) :
  (t = [] -> next_id t = 1) /\
  (forall r, In r t -> product_id r < next_id t) /\
  (t <> [] -> exists r, In r t /\ next_id t = product_id r + 1).
Proof.
  destruct t as [|r0 t]; unfold next_id; cbn [max_id].
  - split; [reflexivity|]. split; [intros r []|]. intros Hne. now destruct Hne.
  - destruct (fold_max_spec (product_id r0) (map product_id t)) as (H1 & H2 & H3).
    repeat split; [discriminate| |].
    + intros r [<- | Hr]; [lia|].
      specialize (H2 (product_id r) (in_map product_id t r Hr)). lia.
    + intros _. destruct H3 as [-> | Hin].
      * exists r0. split; [now left | reflexivity].
      * apply in_map_iff in Hin as (r & <- & Hr).
        exists r. split; [now right | reflexivity].
Qed.

(** C7. For a POST /product request whose body is a JSON object: when
    the name is missing or empty (Python's [not name]), the answer is 400
    [name_required] and the world is left as it was, so no connection was
    attempted; otherwise, when the session is acquired and no call on it
    raises, the answer is 201 with a [product_id] that is 1 for an empty
    table and else the largest identifier of the table plus 1, and the
    row is added under that identifier. *)
Theorem insert_product_spec w kvs :
  request_json (host w) = Ok (JDict kvs) ->
  let n := default JNull (dict_lookup "name" kvs) in
  (truthy n = false -> insert_product tt w = (Ok name_required, w)) /\
  (forall c w1,
     truthy n = true ->
     connect_hana 3 default_backoff w = (Ok c, w1) ->
     (forall i, driver_fault (host w) i = None) ->
     exists new w',
       insert_product tt w =
       (Ok (Response 201 (JDict [("status", JStr "ok"); ("product_id", JInt new)])), w') /\
       (table w = [] -> new = 1) /\
       (forall r, In r (table w) -> product_id r < new) /\
       (table w <> [] -> exists r, In r (table w) /\ new = product_id r + 1) /\
       table w' =
       table w ++ [Row new n (default (JStr "") (dict_lookup "description" kvs)) JNull]).
Proof.
  intros Hreq n. split.
  - intros Hfalse. apply api_ok_returns.
    exact (insert_product_rejects w kvs Hreq Hfalse).
  - intros c w1 Htrue Hconn Hfault.
    pose proof (connect_hana_dialled _ _ _ _ _ Hconn) as (Hh & Ht & _).
    assert (Hfault1 : forall i, driver_fault (host w1) i = None)
      by (rewrite Hh; exact Hfault).
    subst n. destruct (dict_lookup "name" kvs) as [n|] eqn:Hn; [|discriminate].
    cbn [default from_option id] in *.
    exists (next_id (table w)). eexists. split.
    { unfold insert_product. apply api_ok_returns.
      rewrite (insert_product_runs w kvs n c w1 Hreq Hn Htrue Hconn Hfault1).
      rewrite Ht. reflexivity. }
    destruct (next_id_spec (table w)) as (S1 & S2 & S3).
    repeat split; try assumption.
Qed.

(** ** Update *)

Lemma name_matches_spec nm r :
  name_matches (JStr nm) r = true <-> name r = JStr nm.
Proof.
  unfold name_matches. destruct (name r); try (split; discriminate).
  rewrite String.eqb_eq. split; [now intros -> | now intros [= ->]].
Qed.

Lemma is_none_spec d : is_none d = false <-> d <> JNull.
Proof. destruct d; cbn; split; congruence. Qed.

(** C8, amended.  For a PUT /product/{name} request whose body is a JSON
    object: when the description key is absent, the answer is 400
    [description_required]; when it is present with a value that is not
    null (the empty string included), and the session is acquired and no
    call on it raises, the description of every row whose name is exactly
    the given one is replaced, the other rows are left alone, and the
    answer is 200 with [rows_affected] the number of those rows, which
    may be 0. *)
Theorem update_product_spec nm w kvs :
  request_json (host w) = Ok (JDict kvs) ->
  (dict_lookup "description" kvs = None ->
     update_product nm w = (Ok description_required, w)) /\
  (forall d c w1,
     dict_lookup "description" kvs = Some d ->
     d <> JNull ->
     connect_hana 3 default_backoff w = (Ok c, w1) ->
     (forall i, driver_fault (host w) i = None) ->
     exists w',
       update_product nm w =
       (Ok (Response 200 (JDict [("status", JStr "ok");
                                 ("rows_affected", JInt (affected nm (table w)))])), w') /\
       table w' = map (redescribe nm d) (table w) /\
       (forall r, name r = JStr nm ->
                  redescribe nm d r = Row (product_id r) (name r) d (vector r)) /\
       (forall r, name r <> JStr nm -> redescribe nm d r = r) /\
       affected nm (table w) =
       Z.of_nat (length (List.filter (name_matches (JStr nm)) (table w))) /\
       (forall r, name_matches (JStr nm) r = true <-> name r = JStr nm)).
Proof.
  intros Hreq. split.
  - intros Habs. apply api_ok_returns.
    apply (update_product_rejects nm w kvs Hreq). now rewrite Habs.
  - intros d c w1 Hd Hnn Hconn Hfault.
    pose proof (connect_hana_dialled _ _ _ _ _ Hconn) as (Hh & Ht & _).
    assert (Hfault1 : forall i, driver_fault (host w1) i = None)
      by (rewrite Hh; exact Hfault).
    apply is_none_spec in Hnn.
    eexists. split; [|split; [|split; [|split; [|split]]]].
    + unfold update_product. apply api_ok_returns.
      rewrite (update_product_runs nm w kvs d c w1 Hreq Hd Hnn Hconn Hfault1).
      rewrite Ht. reflexivity.
    + reflexivity.
    + intros r Hr. unfold redescribe.
      now rewrite (proj2 (name_matches_spec nm r) Hr).
    + intros r Hr. unfold redescribe.
      destruct (name_matches (JStr nm) r) eqn:Hm; [|reflexivity].
      now apply name_matches_spec in Hm.
    + reflexivity.
    + intros r. apply name_matches_spec.
Qed.

(** C9. A PUT /product/{name} request whose JSON object holds the
    description key with the value null is answered 400
    [description_required] and leaves the world as it was; this is the
    very answer given when the key is absent. *)
Theorem update_product_null_description nm w kvs w2 kvs2 :
  request_json (host w) = Ok (JDict kvs) ->
  dict_lookup "description" kvs = Some JNull ->
  request_json (host w2) = Ok (JDict kvs2) ->
  dict_lookup "description" kvs2 = None ->
  update_product nm w = (Ok description_required, w) /\
  fst (update_product nm w) = fst (update_product nm w2).
Proof.
  intros Hreq Hnull Hreq2 Habs.
  assert (H1 : update_product nm w = (Ok description_required, w)).
  { apply api_ok_returns. apply (update_product_rejects nm w kvs Hreq).
    now rewrite Hnull. }
  assert (H2 : update_product nm w2 = (Ok description_required, w2)).
  { apply api_ok_returns. apply (update_product_rejects nm w2 kvs2 Hreq2).
    now rewrite Habs. }
  split; [exact H1 | now rewrite H1, H2].
Qed.

(** ** A port that is not a number *)

Lemma hana_cfg_invalid_port w s :
  environ (host w) !! "HANA_PORT" = Some s ->
  int_of_str s = None ->
  hana_cfg w = (Raise (invalid_literal s), w).
Proof.
  intros Hport Hint. unfold hana_cfg.
  rewrite (bind_ok get_host _ w (host w) w) by reflexivity.
  rewrite Hport, Hint. reflexivity.
Qed.

Lemma connect_hana_invalid_port retries backoff w s :
  dbapi_loaded (host w) = true ->
  environ (host w) !! "HANA_PORT" = Some s ->
  int_of_str s = None ->
  connect_hana retries backoff w = (Raise (invalid_literal s), w).
Proof.
  intros Hl Hport Hint. unfold connect_hana.
  rewrite (bind_ok get_host _ w (host w) w) by reflexivity.
  rewrite Hl. cbn [negb].
  now rewrite (bind_raise _ _ _ _ _ (hana_cfg_invalid_port w s Hport Hint)).
Qed.

(** C10. When HANA_PORT is set to text that [int] does not parse,
    [hana_cfg] raises a [ValueError], which is neither a configuration
    error nor a connection error, and every wrapped handler that comes to
    read the configuration answers 500 with the [internal] body, not 502:
    [tls_test] always and, when the driver is loaded, the listing, the
    deletion, an insertion with a name and an update with a
    description. *)
Theorem invalid_port_is_internal w s :
  environ (host w) !! "HANA_PORT" = Some s ->
  int_of_str s = None ->
  let e := invalid_literal s in
  let internal := Response 500 (internal_body e) in
  hana_cfg w = (Raise e, w) /\
  exn_type e = ValueError /\
  ~ configuration_error e /\
  ~ connection_error e /\
  status internal <> 502 /\
  tls_test tt w = (Ok internal, w) /\
  (dbapi_loaded (host w) = true ->
     list_products tt w = (Ok internal, w) /\
     (forall nm, delete_product nm w = (Ok internal, w)) /\
     (forall kvs,
        request_json (host w) = Ok (JDict kvs) ->
        truthy (default JNull (dict_lookup "name" kvs)) = true ->
        insert_product tt w = (Ok internal, w)) /\
     (forall nm kvs,
        request_json (host w) = Ok (JDict kvs) ->
        is_none (default JNull (dict_lookup "description" kvs)) = false ->
        update_product nm w = (Ok internal, w))).
Proof.
  intros Hport Hint e internal.
  pose proof (hana_cfg_invalid_port w s Hport Hint) as Hcfg.
  assert (Hwrap : forall A (fn : A -> M response) a,
             fn a w = (Raise e, w) -> api_ok fn a w = (Ok internal, w)).
  { intros A fn a Hfn. now apply api_ok_internal. }
  split; [exact Hcfg|]. split; [reflexivity|].
  split; [intros Hc; now apply configuration_error_runtime in Hc|].
  split; [intros Hc; now apply connection_error_runtime in Hc|].
  split; [discriminate|].
  split.
  { apply Hwrap. unfold tls_test_body.
    now rewrite (bind_raise _ _ _ _ _ Hcfg). }
  intros Hl.
  assert (Hconn : connect_hana 3 default_backoff w = (Raise e, w))
    by now apply connect_hana_invalid_port.
  split; [|split; [|split]].
  - apply Hwrap. unfold list_products_body.
    rewrite (bind_ok get_host _ w (host w) w) by reflexivity.
    now rewrite (bind_raise _ _ _ _ _ Hconn).
  - intros nm. apply Hwrap. unfold delete_product_body.
    rewrite (bind_ok get_host _ w (host w) w) by reflexivity.
    now rewrite (bind_raise _ _ _ _ _ Hconn).
  - intros kvs Hreq Htrue. apply Hwrap. unfold insert_product_body.
    rewrite (bind_ok get_host _ w (host w) w) by reflexivity.
    rewrite (bind_ok _ _ _ _ _ (get_json_dict w kvs Hreq)).
    unfold payload_get.
    rewrite (bind_ok (mret _) _ w (default JNull (dict_lookup "name" kvs)) w)
      by reflexivity.
    rewrite (bind_ok (mret _) _ w _ w) by reflexivity.
    rewrite Htrue. cbn [negb].
    now rewrite (bind_raise _ _ _ _ _ Hconn).
  - intros nm kvs Hreq Hnone. apply Hwrap. unfold update_product_body.
    rewrite (bind_ok get_host _ w (host w) w) by reflexivity.
    rewrite (bind_ok _ _ _ _ _ (get_json_dict w kvs Hreq)).
    unfold payload_get.
    rewrite (bind_ok (mret _) _ w (default JNull (dict_lookup "description" kvs)) w)
      by reflexivity.
    rewrite Hnone.
    now rewrite (bind_raise _ _ _ _ _ Hconn).
Qed.

(* ================================================================== *)
(** * Further properties of [connect_hana] *)
(* ================================================================== *)

Lemma count_connects_cons ev evs :
  count_connects (ev :: evs) =
  ((if is_connect ev then 1 else 0) + count_connects evs)%nat.
Proof. unfold count_connects. cbn. now destruct (is_connect ev). Qed.

(** Whatever the driver does, the loop makes at most one [dbapi.connect]
    call per element of its range, never sleeps more often than it
    dials, dials with [cfg] only, and a session it returns is one that
    the driver opened during the loop. *)
Lemma connect_loop_bounded cfg backoff range : forall last w r w',
  connect_loop cfg backoff range last w = (r, w') ->
  exists evs,
    calls w' = calls w ++ evs /\
    connects w' = (connects w + count_connects evs)%nat /\
    (count_connects evs <= length range)%nat /\
    (length (sleeps evs) <= count_connects evs)%nat /\
    Forall (fun ev => ev = EvConnect cfg \/ is_sleep ev = true) evs /\
    (forall c, r = Ok (inl c) ->
       connect_outcome (host w) c = None /\ (connects w <= c < connects w')%nat).
Proof.
  induction range as [|i range IH]; intros last w r w' Hrun.
  - cbn in Hrun. injection Hrun as <- <-. exists [].
    rewrite app_nil_r. cbn.
    split; [reflexivity|]. split; [lia|]. split; [lia|]. split; [lia|].
    split; [constructor|]. intros c Hc. discriminate Hc.
  - cbn [connect_loop] in Hrun.
    unfold mbind, M_bind, try_, dbapi_connect in Hrun.
    assert (Hone : forall c0 : option conn,
               (forall c, c0 = Some c -> connect_outcome (host w) c = None /\ c = connects w) ->
               exists evs,
                 calls w ++ [EvConnect cfg] = calls w ++ evs /\
                 S (connects w) = (connects w + count_connects evs)%nat /\
                 (count_connects evs <= length (i :: range))%nat /\
                 (length (sleeps evs) <= count_connects evs)%nat /\
                 Forall (fun ev => ev = EvConnect cfg \/ is_sleep ev = true) evs /\
                 (forall c, c0 = Some c ->
                    connect_outcome (host w) c = None /\
                    (connects w <= c < S (connects w))%nat)).
    { intros c0 Hc0. exists [EvConnect cfg]. cbn.
      split; [reflexivity|]. split; [lia|]. split; [lia|]. split; [lia|].
      split; [repeat constructor; now left|].
      intros c Hc. destruct (Hc0 c Hc) as (Hnone & ->). split; [exact Hnone | lia]. }
    destruct (connect_outcome (host w) (connects w)) as [e|] eqn:Hout.
    + destruct (isinstance e Exception).
      * unfold time_sleep in Hrun at 1.
        destruct (sleep_check (delay_mul backoff i)).
        -- injection Hrun as <- <-. cbn [calls connects host].
           destruct (Hone None) as (evs & H1 & H2 & H3 & H4 & H5 & _);
             [discriminate|].
           exists evs. repeat (split; [assumption|]). intros c Hc. discriminate Hc.
        -- apply IH in Hrun as (evs & Hc & Hn & Hle & Hsl & Hall & Hfresh).
           cbn [calls connects host log] in *.
           exists (EvConnect cfg :: EvSleep (delay_mul backoff i) :: evs).
           rewrite !count_connects_cons. cbn [is_connect sleeps length].
           split; [now rewrite Hc, <- !app_assoc|].
           split; [lia|]. split; [lia|]. split; [lia|]. split.
           ++ constructor; [now left|]. constructor; [now right|]. exact Hall.
           ++ intros c Hc'. destruct (Hfresh c Hc') as (Hnone & Hrange).
              split; [exact Hnone | lia].
      * injection Hrun as <- <-. cbn [calls connects host].
        destruct (Hone None) as (evs & H1 & H2 & H3 & H4 & H5 & _);
          [discriminate|].
        exists evs. repeat (split; [assumption|]). intros c Hc. discriminate Hc.
    + injection Hrun as <- <-. cbn [calls connects host].
      destruct (Hone (Some (connects w))) as (evs & H1 & H2 & H3 & H4 & H5 & H6).
      { intros c [= <-]. split; [exact Hout | reflexivity]. }
      exists evs. repeat (split; [assumption|]).
      intros c [= <-]. apply H6. reflexivity.
Qed.

(** X1. Whatever the driver does, [connect_hana retries backoff] leaves
    the table, the cursor and the count of session calls alone, logs
    only [dbapi.connect] calls and sleeps, makes at most [retries] calls
    of [dbapi.connect] (none when [retries <= 0]) and sleeps at most once
    per call. *)
Theorem connect_hana_bounded (retries : Z) (backoff : delay) w r w' :
  connect_hana retries backoff w = (r, w') ->
  host w' = host w /\ table w' = table w /\ cursor w' = cursor w /\
  driver_calls w' = driver_calls w /\
  exists evs,
    calls w' = calls w ++ evs /\
    Forall (fun ev => dial_event ev = true) evs /\
    connects w' = (connects w + count_connects evs)%nat /\
    Z.of_nat (count_connects evs) <= Z.max 0 retries /\
    (length (sleeps evs) <= count_connects evs)%nat.
Proof.
  intros Hrun.
  destruct (connect_hana_dialled _ _ _ _ _ Hrun) as (Hh & Ht & Hc & Hd & _).
  repeat (split; [assumption|]).
  assert (Hnone : forall w0 : world, exists evs,
             calls w0 = calls w0 ++ evs /\
             Forall (fun ev => dial_event ev = true) evs /\
             connects w0 = (connects w0 + count_connects evs)%nat /\
             Z.of_nat (count_connects evs) <= Z.max 0 retries /\
             (length (sleeps evs) <= count_connects evs)%nat).
  { intros w0. exists []. rewrite app_nil_r. cbn.
    repeat split; try lia. constructor. }
  revert Hrun. unfold connect_hana. run.
  destruct (dbapi_loaded (host w)); cbn.
  2:{ intros [= _ <-]. apply Hnone. }
  destruct (hana_cfg w) as [[cfg|e] w1] eqn:Hcfg;
    apply hana_cfg_pure in Hcfg as ->.
  2:{ intros [= _ <-]. apply Hnone. }
  destruct (blank (address cfg) || blank (user cfg) || blank (password cfg)).
  { intros [= _ <-]. apply Hnone. }
  destruct (connect_loop cfg backoff (seqZ 1 retries) None w) as [r2 w2] eqn:Hloop.
  apply connect_loop_bounded in Hloop as (evs & Hcalls & Hn & Hle & Hsl & Hall & _).
  rewrite length_seqZ in Hle.
  assert (Hw : w' = w2 -> exists evs0,
             calls w' = calls w ++ evs0 /\
             Forall (fun ev => dial_event ev = true) evs0 /\
             connects w' = (connects w + count_connects evs0)%nat /\
             Z.of_nat (count_connects evs0) <= Z.max 0 retries /\
             (length (sleeps evs0) <= count_connects evs0)%nat).
  { intros ->. exists evs. repeat split; try assumption; [|lia].
    eapply Forall_impl; [exact Hall|].
    intros ev [-> | Hs]; [reflexivity|].
    unfold dial_event. rewrite Hs. apply orb_true_r. }
  destruct r2 as [[c|[last|]]|e]; intros [= _ <-]; now apply Hw.
Qed.

(** X2. A session that [connect_hana] returns is one that the driver
    opened during this very call: its [dbapi.connect] call succeeded and
    it is numbered after the calls made before. *)
Theorem connect_hana_fresh_session (retries : Z) (backoff : delay) w c w' :
  connect_hana retries backoff w = (Ok c, w') ->
  connect_outcome (host w) c = None /\
  (connects w <= c < connects w')%nat /\
  0 < retries.
Proof.
  unfold connect_hana. run.
  destruct (dbapi_loaded (host w)); cbn; [|discriminate].
  destruct (hana_cfg w) as [[cfg|e] w1] eqn:Hcfg;
    apply hana_cfg_pure in Hcfg as ->; [|discriminate].
  destruct (blank (address cfg) || blank (user cfg) || blank (password cfg));
    [discriminate|].
  destruct (connect_loop cfg backoff (seqZ 1 retries) None w) as [r2 w2] eqn:Hloop.
  destruct r2 as [[c2|[last|]]|e]; try discriminate.
  intros [= <- <-].
  pose proof Hloop as Hb.
  apply connect_loop_bounded in Hb as (evs & _ & Hn & Hle & _ & _ & Hfresh).
  destruct (Hfresh c2 eq_refl) as (Hnone & Hrange).
  split; [exact Hnone|]. split; [exact Hrange|].
  rewrite length_seqZ in Hle. lia.
Qed.

(** The world after one more [dbapi.connect] call. *)
Lemma connect_hana_first_attempt (retries : Z) backoff w cfg :
  dbapi_loaded (host w) = true ->
  hana_cfg w = (Ok cfg, w) ->
  blank (address cfg) || blank (user cfg) || blank (password cfg) = false ->
  0 < retries ->
  connect_hana retries backoff w =
  match connect_loop cfg backoff (1 :: seqZ 2 (retries - 1)) None w with
  | (Ok (inl c), w') => (Ok c, w')
  | (Ok (inr (Some last)), w') => (Raise (connect_failed retries last), w')
  | (Ok (inr None), w') =>
      (Raise (Exn AttributeError
                "'NoneType' object has no attribute '__traceback__'" (stack 44)), w')
  | (Raise e, w') => (Raise e, w')
  end.
Proof.
  intros Hl Hcfg Hblank Hpos.
  rewrite (connect_hana_dials retries backoff w cfg Hl Hcfg Hblank).
  now rewrite (seqZ_cons 1 retries Hpos).
Qed.

(** X3. For any number [n >= 1] of retries: when all [n] calls of
    [dbapi.connect] raise, [connect_hana] makes exactly [n] attempts,
    sleeps after each of them, [backoff * 1], ..., [backoff * n], and
    raises the connection error that carries [n] and the error of the
    last attempt. *)
Theorem connect_hana_exhausted_any (n : nat) (backoff : delay) w cfg :
  (0 < n)%nat ->
  dbapi_loaded (host w) = true ->
  hana_cfg w = (Ok cfg, w) ->
  blank (address cfg) || blank (user cfg) || blank (password cfg) = false ->
  (forall j, (j < n)%nat -> exists e,
      connect_outcome (host w) (connects w + j) = Some e /\
      isinstance e Exception = true) ->
  (forall j, (j < n)%nat -> sleep_check (delay_mul backoff (1 + Z.of_nat j)) = None) ->
  exists last w',
    connect_outcome (host w) (connects w + (n - 1)) = Some last /\
    connect_hana (Z.of_nat n) backoff w =
      (Raise (connect_failed (Z.of_nat n) last), w') /\
    calls w' = calls w ++ retry_log cfg backoff 1 n /\
    connects w' = (connects w + n)%nat /\
    count_connects (retry_log cfg backoff 1 n) = n /\
    sleeps (retry_log cfg backoff 1 n) = map (delay_mul backoff) (seqZ 1 (Z.of_nat n)).
Proof.
  intros Hn Hl Hcfg Hblank Hfail Hsleep.
  destruct n as [|m]; [lia|].
  destruct (Hfail m ltac:(lia)) as (last & Hlast & _).
  exists last. eexists. split.
  { rewrite <- Hlast. f_equal. lia. }
  split.
  { rewrite (connect_hana_dials _ backoff w cfg Hl Hcfg Hblank).
    rewrite (connect_loop_exhaust cfg backoff (S m) 1 None w Hfail Hsleep).
    cbn [last_failure]. rewrite Hlast. reflexivity. }
  cbn [calls connects]. repeat split.
  - rewrite <- (app_nil_r (retry_log cfg backoff 1 (S m))).
    rewrite count_connects_retry_log. cbn. lia.
  - rewrite <- (app_nil_r (retry_log cfg backoff 1 (S m))).
    rewrite sleeps_retry_log. cbn [sleeps]. now rewrite !app_nil_r.
Qed.

(** X4. For any number [n] of retries and [k < n]: when the first [k]
    calls of [dbapi.connect] raise and the next one opens a session,
    [connect_hana] returns it after [k + 1] attempts and [k] sleeps, and
    the attempts that are left are not made. *)
Theorem connect_hana_retry_any (n k : nat) (backoff : delay) w cfg :
  (k < n)%nat ->
  dbapi_loaded (host w) = true ->
  hana_cfg w = (Ok cfg, w) ->
  blank (address cfg) || blank (user cfg) || blank (password cfg) = false ->
  (forall j, (j < k)%nat -> exists e,
      connect_outcome (host w) (connects w + j) = Some e /\
      isinstance e Exception = true) ->
  connect_outcome (host w) (connects w + k) = None ->
  (forall j, (j < k)%nat -> sleep_check (delay_mul backoff (1 + Z.of_nat j)) = None) ->
  exists w',
    connect_hana (Z.of_nat n) backoff w = (Ok (connects w + k)%nat, w') /\
    calls w' = calls w ++ retry_log cfg backoff 1 k ++ [EvConnect cfg] /\
    connects w' = (connects w + S k)%nat /\
    count_connects (retry_log cfg backoff 1 k ++ [EvConnect cfg]) = S k /\
    sleeps (retry_log cfg backoff 1 k ++ [EvConnect cfg]) =
      map (delay_mul backoff) (seqZ 1 (Z.of_nat k)).
Proof.
  intros Hk Hl Hcfg Hblank Hfail Hok Hsleep.
  eexists. split.
  { rewrite (connect_hana_dials _ backoff w cfg Hl Hcfg Hblank).
    rewrite (connect_loop_retry cfg backoff k n 1 None w Hk Hfail Hok Hsleep).
    reflexivity. }
  cbn [calls connects]. repeat split.
  - rewrite count_connects_retry_log. cbn. lia.
  - rewrite sleeps_retry_log. cbn. now rewrite app_nil_r.
Qed.

(** X5. With [retries <= 0] the loop body never runs: [dbapi.connect] is
    not called, [last] is still [None], and building the message fails
    with an [AttributeError], which is not a [RuntimeError]; the world
    is left as it was. *)
Theorem connect_hana_no_attempts (retries : Z) (backoff : delay) w cfg :
  retries <= 0 ->
  dbapi_loaded (host w) = true ->
  hana_cfg w = (Ok cfg, w) ->
  blank (address cfg) || blank (user cfg) || blank (password cfg) = false ->
  exists e,
    connect_hana retries backoff w = (Raise e, w) /\
    exn_type e = AttributeError /\
    isinstance e RuntimeError = false /\
    ~ connection_error e /\ ~ configuration_error e.
Proof.
  intros Hle Hl Hcfg Hblank.
  eexists. split.
  { rewrite (connect_hana_dials _ backoff w cfg Hl Hcfg Hblank).
    rewrite (seqZ_nil 1 retries Hle). reflexivity. }
  split; [reflexivity|]. split; [reflexivity|]. split.
  - intros Hc. now apply connection_error_runtime in Hc.
  - intros Hc. now apply configuration_error_runtime in Hc.
Qed.

(** The driver is tested first, before the environment is read. *)
Lemma connect_hana_driver_missing (retries : Z) (backoff : delay) w :
  dbapi_loaded (host w) = false ->
  connect_hana retries backoff w = (Raise driver_missing, w) /\
  exn_str driver_missing = "hdbcli not installed in container" /\
  isinstance driver_missing RuntimeError = true.
Proof.
  intros Hl. split; [|split; reflexivity].
  unfold connect_hana.
  rewrite (bind_ok get_host _ w (host w) w) by reflexivity.
  now rewrite Hl.
Qed.

(** X6. An exception of the driver that is not an [Exception] (a
    [KeyboardInterrupt], say) is not caught by the loop: it leaves
    [connect_hana] after the one attempt, without a sleep and without a
    retry. *)
Theorem connect_hana_not_retried (retries : Z) (backoff : delay) w cfg e :
  0 < retries ->
  dbapi_loaded (host w) = true ->
  hana_cfg w = (Ok cfg, w) ->
  blank (address cfg) || blank (user cfg) || blank (password cfg) = false ->
  connect_outcome (host w) (connects w) = Some e ->
  isinstance e Exception = false ->
  connect_hana retries backoff w =
  (Raise e,
   World (host w) (table w) (cursor w) (S (connects w)) (driver_calls w)
         (calls w ++ [EvConnect cfg])).
Proof.
  intros Hpos Hl Hcfg Hblank Hout He.
  rewrite (connect_hana_first_attempt retries backoff w cfg Hl Hcfg Hblank Hpos).
  cbn [connect_loop]. unfold mbind, M_bind, try_, dbapi_connect.
  now rewrite Hout, He.
Qed.

(** X7. When [time.sleep] itself raises after a failed attempt (a
    negative delay), that exception leaves [connect_hana]: the first
    attempt is the only one, and no connection error is built. *)
Theorem connect_hana_sleep_raises (retries : Z) (backoff : delay) w cfg e e' :
  0 < retries ->
  dbapi_loaded (host w) = true ->
  hana_cfg w = (Ok cfg, w) ->
  blank (address cfg) || blank (user cfg) || blank (password cfg) = false ->
  connect_outcome (host w) (connects w) = Some e ->
  isinstance e Exception = true ->
  sleep_check (delay_mul backoff 1) = Some e' ->
  connect_hana retries backoff w =
  (Raise e',
   World (host w) (table w) (cursor w) (S (connects w)) (driver_calls w)
         (calls w ++ [EvConnect cfg])).
Proof.
  intros Hpos Hl Hcfg Hblank Hout He Hs.
  rewrite (connect_hana_first_attempt retries backoff w cfg Hl Hcfg Hblank Hpos).
  cbn [connect_loop]. unfold mbind, M_bind, try_, dbapi_connect.
  rewrite Hout, He. unfold time_sleep. now rewrite Hs.
Qed.

(* ================================================================== *)
(** * Further properties of the envelope and the handlers *)
(* ================================================================== *)

Lemma runtime_error_is_exception e :
  isinstance e RuntimeError = true -> isinstance e Exception = true.
Proof. unfold isinstance. now destruct (exn_type e). Qed.

Lemma api_ok_exception {A} (fn : A -> M response) a w e w' :
  fn a w = (Raise e, w') ->
  isinstance e Exception = true ->
  api_ok fn a w = (Ok (envelope_of e), w').
Proof.
  intros Hfn He. unfold envelope_of.
  destruct (isinstance e RuntimeError) eqn:Hr.
  - now apply api_ok_runtime.
  - now apply api_ok_internal.
Qed.

(** What leaves the wrapper left the handler, and is no [Exception]. *)
Lemma api_ok_raise_inv {A} (fn : A -> M response) a w e w' :
  api_ok fn a w = (Raise e, w') ->
  fn a w = (Raise e, w') /\ isinstance e Exception = false /\
  isinstance e RuntimeError = false.
Proof.
  unfold api_ok, mbind, M_bind, try_, mret, M_ret, raise.
  destruct (fn a w) as [[resp|e0] w0]; [discriminate|].
  destruct (isinstance e0 RuntimeError) eqn:Hr; [discriminate|].
  destruct (isinstance e0 Exception) eqn:He; [discriminate|].
  intros [= <- <-]. now repeat split.
Qed.

(** X8. The wrapper adds no effect of its own: the world after the
    wrapped handler is the world the handler left.  A response of the
    handler is passed on as it is, and an exception that is not an
    [Exception] (a [KeyboardInterrupt], a [SystemExit]) is not caught:
    it leaves the wrapper too. *)
Theorem api_ok_transparent {A} (fn : A -> M response) a w :
  snd (api_ok fn a w) = snd (fn a w) /\
  (forall resp, fst (fn a w) = Ok resp -> fst (api_ok fn a w) = Ok resp) /\
  (forall e, fst (fn a w) = Raise e -> isinstance e Exception = false ->
             fst (api_ok fn a w) = Raise e) /\
  (forall e, fst (api_ok fn a w) = Raise e ->
             fst (fn a w) = Raise e /\ isinstance e Exception = false).
Proof.
  unfold api_ok, mbind, M_bind, try_, mret, M_ret, raise.
  destruct (fn a w) as [[resp|e] w'] eqn:Hfn; cbn [fst snd].
  - repeat split; intros; congruence.
  - destruct (isinstance e RuntimeError) eqn:Hr; cbn [fst snd].
    + apply runtime_error_is_exception in Hr.
      repeat split; intros; congruence.
    + destruct (isinstance e Exception) eqn:He; cbn [fst snd];
        repeat split; intros; congruence.
Qed.

(** X9. Wrapping a handler twice is wrapping it once. *)
Theorem api_ok_idempotent {A} (fn : A -> M response) a w :
  api_ok (api_ok fn) a w = api_ok fn a w.
Proof.
  destruct (api_ok fn a w) as [[resp|e] w'] eqn:Hwrap.
  - now apply api_ok_returns.
  - destruct (api_ok_raise_inv fn a w e w' Hwrap) as (_ & He & Hr).
    unfold api_ok at 1. unfold mbind, M_bind, try_. rewrite Hwrap.
    now rewrite Hr, He.
Qed.

(** The handlers hand on what [connect_hana] raises. *)
Lemma list_products_body_raises w e w' :
  connect_hana 3 default_backoff w = (Raise e, w') ->
  list_products_body tt w = (Raise e, w').
Proof.
  intros Hconn. unfold list_products_body.
  rewrite (bind_ok get_host _ w (host w) w) by reflexivity.
  now rewrite (bind_raise _ _ _ _ _ Hconn).
Qed.

Lemma delete_product_body_raises nm w e w' :
  connect_hana 3 default_backoff w = (Raise e, w') ->
  delete_product_body nm w = (Raise e, w').
Proof.
  intros Hconn. unfold delete_product_body.
  rewrite (bind_ok get_host _ w (host w) w) by reflexivity.
  now rewrite (bind_raise _ _ _ _ _ Hconn).
Qed.

Lemma insert_product_body_raises w kvs e w' :
  request_json (host w) = Ok (JDict kvs) ->
  truthy (default JNull (dict_lookup "name" kvs)) = true ->
  connect_hana 3 default_backoff w = (Raise e, w') ->
  insert_product_body tt w = (Raise e, w').
Proof.
  intros Hreq Htrue Hconn. unfold insert_product_body.
  rewrite (bind_ok get_host _ w (host w) w) by reflexivity.
  rewrite (bind_ok _ _ _ _ _ (get_json_dict w kvs Hreq)).
  unfold payload_get.
  rewrite (bind_ok (mret _) _ w (default JNull (dict_lookup "name" kvs)) w)
    by reflexivity.
  rewrite (bind_ok (mret _) _ w _ w) by reflexivity.
  rewrite Htrue. cbn [negb].
  now rewrite (bind_raise _ _ _ _ _ Hconn).
Qed.

Lemma update_product_body_raises nm w kvs e w' :
  request_json (host w) = Ok (JDict kvs) ->
  is_none (default JNull (dict_lookup "description" kvs)) = false ->
  connect_hana 3 default_backoff w = (Raise e, w') ->
  update_product_body nm w = (Raise e, w').
Proof.
  intros Hreq Hnone Hconn. unfold update_product_body.
  rewrite (bind_ok get_host _ w (host w) w) by reflexivity.
  rewrite (bind_ok _ _ _ _ _ (get_json_dict w kvs Hreq)).
  unfold payload_get.
  rewrite (bind_ok (mret _) _ w (default JNull (dict_lookup "description" kvs)) w)
    by reflexivity.
  rewrite Hnone.
  now rewrite (bind_raise _ _ _ _ _ Hconn).
Qed.

Lemma handlers_when_connect_raises_aux w e w' :
  connect_hana 3 default_backoff w = (Raise e, w') ->
  isinstance e Exception = true ->
  list_products tt w = (Ok (envelope_of e), w') /\
  (forall nm, delete_product nm w = (Ok (envelope_of e), w')).
Proof.
  intros Hconn He. split.
  - apply api_ok_exception; [|exact He]. now apply list_products_body_raises.
  - intros nm. apply api_ok_exception; [|exact He].
    now apply delete_product_body_raises.
Qed.

(** X10. When [connect_hana] raises an [Exception] in a handler, the
    handler has made no call on a session: the table and the count of
    session calls are as before, and the answer is the envelope of that
    exception, 502 [connection_error] for a [RuntimeError] and 500
    [internal] otherwise.  This holds for the listing and the deletion,
    and for an insertion and an update that pass validation. *)
Theorem handlers_when_connect_raises w e w' :
  connect_hana 3 default_backoff w = (Raise e, w') ->
  isinstance e Exception = true ->
  table w' = table w /\ driver_calls w' = driver_calls w /\
  list_products tt w = (Ok (envelope_of e), w') /\
  (forall nm, delete_product nm w = (Ok (envelope_of e), w')) /\
  (forall kvs,
     request_json (host w) = Ok (JDict kvs) ->
     truthy (default JNull (dict_lookup "name" kvs)) = true ->
     insert_product tt w = (Ok (envelope_of e), w')) /\
  (forall nm kvs,
     request_json (host w) = Ok (JDict kvs) ->
     is_none (default JNull (dict_lookup "description" kvs)) = false ->
     update_product nm w = (Ok (envelope_of e), w')).
Proof.
  intros Hconn He.
  destruct (connect_hana_dialled _ _ _ _ _ Hconn) as (_ & Ht & _ & Hd & _).
  split; [exact Ht|]. split; [exact Hd|].
  split; [|split; [|split]].
  - apply api_ok_exception; [|exact He]. now apply list_products_body_raises.
  - intros nm. apply api_ok_exception; [|exact He].
    now apply delete_product_body_raises.
  - intros kvs Hreq Htrue. apply api_ok_exception; [|exact He].
    now apply (insert_product_body_raises w kvs).
  - intros nm kvs Hreq Hnone. apply api_ok_exception; [|exact He].
    now apply (update_product_body_raises nm w kvs).
Qed.

(** X11. Without the driver, whatever the environment holds (nothing, or
    a port that is no number), the listing and the deletion answer 502
    with the message "hdbcli not installed in container" and leave the
    world as it was, while [health] still answers 200 and reports the
    driver as not installed. *)
Theorem handlers_without_driver w :
  dbapi_loaded (host w) = false ->
  let resp :=
    Response 502 (JDict [("error", JStr "connection_error");
                         ("message", JStr "hdbcli not installed in container")]) in
  list_products tt w = (Ok resp, w) /\
  (forall nm, delete_product nm w = (Ok resp, w)) /\
  exists rest,
    health tt w =
    (Ok (Response 200 (JDict (("status", JStr "ok")
                              :: ("hdbcli_installed", JBool false) :: rest))), w).
Proof.
  intros Hl resp.
  destruct (connect_hana_driver_missing 3 default_backoff w Hl) as (Hconn & _ & Hr).
  pose proof (runtime_error_is_exception _ Hr) as He.
  destruct (handlers_when_connect_raises_aux w driver_missing w Hconn He)
    as (Hlist & Hdelete).
  split; [exact Hlist|]. split; [exact Hdelete|].
  eexists. unfold health.
  rewrite (bind_ok get_host _ w (host w) w) by reflexivity.
  rewrite Hl. reflexivity.
Qed.

(* ================================================================== *)
(** * Nothing but responses *)
(* ================================================================== *)

Ltac keep_host Hh := first [exact Hh | reflexivity | cbn; congruence].

Lemma tame_ret {A} h (a : A) : tame_at h (mret a).
Proof. intros w r w' Hh [= <- <-]. split; [keep_host Hh|]. discriminate. Qed.

Lemma tame_raise {A} h e :
  isinstance e Exception = true -> tame_at h (raise (A := A) e).
Proof.
  intros He w r w' Hh [= <- <-]. split; [keep_host Hh|].
  intros _ _ e' [= <-]. exact He.
Qed.

Lemma tame_bind {A B} h (m : M A) (f : A -> M B) :
  tame_at h m -> (forall a, tame_at h (f a)) -> tame_at h (m ≫= f).
Proof.
  intros Hm Hf w r w' Hh. unfold mbind, M_bind.
  destruct (m w) as [[a|e] w1] eqn:Hrun; destruct (Hm w _ w1 Hh Hrun) as (Hh1 & Hr1).
  - intros Hrun2. exact (Hf a w1 r w' Hh1 Hrun2).
  - intros [= <- <-]. split; [exact Hh1|].
    intros Hb Hs e0 [= <-]. exact (Hr1 Hb Hs e eq_refl).
Qed.

Lemma tame_get_host {B} h (f : setting -> M B) :
  tame_at h (f h) -> tame_at h (get_host ≫= f).
Proof.
  intros Hf w r w' Hh. unfold mbind, M_bind, get_host. rewrite Hh.
  now apply Hf.
Qed.

Lemma tame_get_json h : tame_at h get_json.
Proof.
  intros w r w' Hh. unfold get_json. rewrite Hh.
  destruct (request_json h) as [j|e] eqn:Hreq; intros [= <- <-];
    (split; [keep_host Hh|]); [discriminate|].
  intros (_ & _ & Hb & _) _ e' [= <-]. now apply Hb.
Qed.

Lemma tame_driver_call h ev : tame_at h (driver_call ev).
Proof.
  intros w r w' Hh. unfold driver_call. rewrite Hh.
  destruct (driver_fault h (driver_calls w)) as [e|] eqn:Hf; intros [= <- <-];
    (split; [keep_host Hh|]); [|discriminate].
  intros (_ & Hb & _) _ e' [= <-]. exact (Hb _ _ Hf).
Qed.

Lemma tame_apply_statement h q : tame_at h (apply_statement q).
Proof.
  intros w r w' Hh. unfold apply_statement.
  destruct (run_statement q (table w)) as [[t' cs]|e] eqn:Hq; intros [= <- <-];
    (split; [keep_host Hh|]); [discriminate|].
  intros _ _ e' [= <-].
  destruct q; try discriminate Hq.
  destruct id; cbn in Hq;
    first [discriminate Hq | injection Hq as <-; reflexivity].
Qed.

Lemma tame_take_all h : tame_at h take_all.
Proof. intros w r w' Hh [= <- <-]. split; [keep_host Hh|]. discriminate. Qed.

Lemma tame_take_one h : tame_at h take_one.
Proof.
  intros w r w' Hh. unfold take_one.
  destruct (pending (cursor w)); intros [= <- <-]; (split; [keep_host Hh|]); discriminate.
Qed.

Lemma tame_cur_rowcount h c : tame_at h (cur_rowcount c).
Proof. intros w r w' Hh [= <- <-]. split; [keep_host Hh|]. discriminate. Qed.

Lemma tame_hana_cfg h : tame_at h hana_cfg.
Proof.
  intros w r w' Hh Hrun. pose proof (hana_cfg_pure _ _ _ Hrun) as ->.
  split; [keep_host Hh|]. intros _ _ e ->.
  apply hana_cfg_raises in Hrun. unfold isinstance. now rewrite Hrun.
Qed.

Lemma tame_connect_loop h cfg backoff range : forall last,
  tame_at h (connect_loop cfg backoff range last).
Proof.
  induction range as [|i range IH]; intros last w r w' Hh Hrun.
  - cbn in Hrun. injection Hrun as <- <-. split; [keep_host Hh|]. discriminate.
  - cbn [connect_loop] in Hrun.
    unfold mbind, M_bind, try_, dbapi_connect in Hrun. rewrite Hh in Hrun.
    destruct (connect_outcome h (connects w)) as [e|] eqn:Hout.
    + destruct (isinstance e Exception) eqn:He.
      * unfold time_sleep in Hrun at 1.
        destruct (sleep_check (delay_mul backoff i)) as [e'|] eqn:Hs.
        -- injection Hrun as <- <-. split; [reflexivity|].
           intros _ Hsb e0 [= <-]. exact (Hsb _ _ Hs).
        -- now apply IH in Hrun.
      * injection Hrun as <- <-. split; [reflexivity|].
        intros (Hb & _) _ e0 [= <-]. exact (Hb _ _ Hout).
    + injection Hrun as <- <-. split; [reflexivity|]. discriminate.
Qed.

Lemma tame_connect_hana h retries backoff : tame_at h (connect_hana retries backoff).
Proof.
  unfold connect_hana. apply tame_get_host.
  destruct (dbapi_loaded h); cbn [negb]; [|now apply tame_raise].
  apply tame_bind; [apply tame_hana_cfg|]. intros cfg.
  destruct (blank (address cfg) || blank (user cfg) || blank (password cfg));
    [now apply tame_raise|].
  apply tame_bind; [apply tame_connect_loop|].
  intros [c|[last|]]; [apply tame_ret | now apply tame_raise | now apply tame_raise].
Qed.

Lemma tame_tuple_get h r i line : tame_at h (tuple_get r i line).
Proof.
  unfold tuple_get. destruct (r !! i); [apply tame_ret | now apply tame_raise].
Qed.

Lemma tame_plus_one h v : tame_at h (plus_one v).
Proof. destruct v; try apply tame_ret; now apply tame_raise. Qed.

Lemma tame_payload_get h payload key dflt line :
  tame_at h (payload_get payload key dflt line).
Proof. destruct payload; try apply tame_ret; now apply tame_raise. Qed.

Lemma tame_mapM_product_json h rows : tame_at h (mapM product_json rows).
Proof.
  induction rows as [|r rows IH]; [apply tame_ret|].
  cbn [mapM]. apply tame_bind.
  - unfold product_json.
    repeat (apply tame_bind; [apply tame_tuple_get | intros ?]). apply tame_ret.
  - intros y. apply tame_bind; [exact IH|]. intros k. apply tame_ret.
Qed.

Ltac tame_step :=
  first
    [ apply tame_ret
    | apply tame_get_json
    | apply tame_driver_call
    | apply tame_apply_statement
    | apply tame_take_all
    | apply tame_take_one
    | apply tame_cur_rowcount
    | apply tame_connect_hana
    | apply tame_plus_one
    | apply tame_payload_get
    | apply tame_mapM_product_json
    | apply tame_get_host
    | apply tame_bind; [|intros ?] ].

Ltac tame_driver :=
  unfold conn_cursor, cur_execute, cur_fetchall, cur_fetchone, conn_commit,
    cur_close, conn_close;
  repeat tame_step.

Lemma tame_list_products_body h : tame_at h (list_products_body tt).
Proof. unfold list_products_body. tame_driver. Qed.

Lemma tame_delete_product_body h nm : tame_at h (delete_product_body nm).
Proof. unfold delete_product_body. tame_driver. Qed.

Lemma tame_insert_product_body h : tame_at h (insert_product_body tt).
Proof.
  unfold insert_product_body. do 3 tame_step.
  - tame_step.
  - tame_step; [tame_step|].
    destruct (negb (truthy _)); tame_driver.
Qed.

Lemma tame_update_product_body h nm : tame_at h (update_product_body nm).
Proof.
  unfold update_product_body. do 3 tame_step.
  - tame_step.
  - destruct (is_none _); tame_driver.
Qed.

Lemma tame_absorb h out key e :
  (benign h -> isinstance e Exception = true) ->
  tame_at h (absorb out key e).
Proof.
  intros He w r w' Hh. unfold absorb.
  destruct (isinstance e Exception) eqn:Hi; intros [= <- <-];
    (split; [keep_host Hh|]).
  - intros _ _ e0 H0. discriminate H0.
  - intros Hb _ e' [= <-]. discriminate (He Hb).
Qed.

Lemma tame_tls_test_body h : tame_at h (tls_test_body tt).
Proof.
  unfold tls_test_body. apply tame_bind; [apply tame_hana_cfg|]. intros cfg.
  apply tame_get_host. apply tame_bind.
  - destruct (tcp_probe h) as [|e|e] eqn:Htcp; [apply tame_ret| |];
      apply tame_absorb; intros (_ & _ & _ & Hb & _); apply Hb; auto.
  - intros out. apply tame_bind; [|intros ?; apply tame_ret].
    destruct (tls_probe h) as [c|e|c e] eqn:Htls; [apply tame_ret| |];
      apply tame_absorb; intros (_ & _ & _ & _ & Hb).
    + apply (Hb JNull). now left.
    + apply (Hb c). now right.
Qed.

Lemma api_ok_tame {A} (fn : A -> M response) a w :
  tame_at (host w) (fn a) ->
  benign (host w) -> sleep_benign ->
  exists resp w', api_ok fn a w = (Ok resp, w') /\ host w' = host w.
Proof.
  intros Ht Hb Hs.
  destruct (fn a w) as [[resp|e] w'] eqn:Hrun;
    destruct (Ht w _ w' eq_refl Hrun) as (Hh & Hexc).
  - exists resp, w'. split; [now apply api_ok_returns | exact Hh].
  - exists (envelope_of e), w'. split; [|exact Hh].
    apply api_ok_exception; [exact Hrun|]. now apply Hexc.
Qed.

(** X12. In a benign setting (whatever the driver, the request parser,
    the probes and [time.sleep] raise is an [Exception]) every wrapped
    handler returns a response, whatever fails: no exception leaves the
    listing, the insertion, the update, the deletion or the TLS test. *)
Theorem handlers_always_respond w :
  benign (host w) ->
  sleep_benign ->
  (exists resp w', list_products tt w = (Ok resp, w') /\ host w' = host w) /\
  (exists resp w', insert_product tt w = (Ok resp, w') /\ host w' = host w) /\
  (forall nm, exists resp w', update_product nm w = (Ok resp, w') /\ host w' = host w) /\
  (forall nm, exists resp w', delete_product nm w = (Ok resp, w') /\ host w' = host w) /\
  (exists resp w', tls_test tt w = (Ok resp, w') /\ host w' = host w).
Proof.
  intros Hb Hs. repeat split; intros; apply api_ok_tame; try assumption.
  - apply tame_list_products_body.
  - apply tame_insert_product_body.
  - apply tame_update_product_body.
  - apply tame_delete_product_body.
  - apply tame_tls_test_body.
Qed.

(* ================================================================== *)
(** * What the handlers do to the table *)
(* ================================================================== *)

#[local] Instance row_le_total : Total row_le.
Proof. intros r1 r2. unfold row_le. lia. Qed.

#[local] Instance row_le_trans : Transitive row_le.
Proof. intros r1 r2 r3. unfold row_le. lia. Qed.

(** X13. When the session is acquired and no call on it raises, the
    listing answers 200 with one entry per row of the table, each row
    exactly once, in ascending order of [product_id], and it leaves the
    table as it was. *)
Theorem list_products_sorted w c w1 :
  connect_hana 3 default_backoff w = (Ok c, w1) ->
  (forall i, driver_fault (host w) i = None) ->
  exists rows w',
    list_products tt w =
      (Ok (Response 200 (JDict [("products", JList (map entry_of rows))])), w') /\
    rows ≡ₚ table w /\
    StronglySorted row_le rows /\
    length rows = length (table w) /\
    table w' = table w.
Proof.
  intros Hconn Hfault.
  pose proof (connect_hana_dialled _ _ _ _ _ Hconn) as (Hh & Ht & _).
  assert (Hfault1 : forall i, driver_fault (host w1) i = None)
    by (rewrite Hh; exact Hfault).
  exists (merge_sort row_le (table w)). eexists. split.
  { unfold list_products. apply api_ok_returns.
    rewrite (list_products_runs w c w1 Hconn Hfault1). rewrite Ht. reflexivity. }
  split; [apply merge_sort_Permutation|].
  split; [apply StronglySorted_merge_sort; apply _|].
  split; [now rewrite merge_sort_Permutation|].
  cbn [table after_calls]. reflexivity.
Qed.

Lemma filter_length_split {A} (f : A -> bool) (l : list A) :
  (length (List.filter f l) + length (List.filter (fun x => negb (f x)) l))%nat
  = length l.
Proof.
  induction l as [|x l IH]; [reflexivity|].
  cbn. destruct (f x); cbn; lia.
Qed.

Lemma affected_none nm t :
  (forall r, In r t -> name r <> JStr nm) -> affected nm t = 0.
Proof.
  intros Hno. unfold affected.
  replace (List.filter (name_matches (JStr nm)) t) with (@nil row); [reflexivity|].
  symmetry. induction t as [|r t IH]; [reflexivity|].
  cbn [List.filter]. destruct (name_matches (JStr nm) r) eqn:Hm.
  - apply name_matches_spec in Hm. destruct (Hno r (or_introl eq_refl) Hm).
  - apply IH. intros r' Hr'. apply Hno. now right.
Qed.

Lemma filter_all {A} (f : A -> bool) (l : list A) :
  (forall x, In x l -> f x = true) -> List.filter f l = l.
Proof.
  induction l as [|x l IH]; intros Hall; [reflexivity|].
  cbn. rewrite (Hall x (or_introl eq_refl)). f_equal.
  apply IH. intros y Hy. apply Hall. now right.
Qed.

(** X14. When the session is acquired and no call on it raises, the
    deletion answers 200 with [rows_affected] the number of rows of that
    name; afterwards no row of that name is left, every other row is
    still there, the table is shorter by [rows_affected], and deleting
    the same name again would affect 0 rows.  A name that no row has
    gives [rows_affected] 0 and leaves the table as it was. *)
Theorem delete_product_spec nm w c w1 :
  connect_hana 3 default_backoff w = (Ok c, w1) ->
  (forall i, driver_fault (host w) i = None) ->
  exists w',
    delete_product nm w =
      (Ok (Response 200 (JDict [("status", JStr "ok");
                                ("rows_affected", JInt (affected nm (table w)))])), w') /\
    (forall r, In r (table w') <-> In r (table w) /\ name r <> JStr nm) /\
    Z.of_nat (length (table w')) + affected nm (table w) = Z.of_nat (length (table w)) /\
    affected nm (table w') = 0 /\
    ((forall r, In r (table w) -> name r <> JStr nm) ->
       affected nm (table w) = 0 /\ table w' = table w).
Proof.
  intros Hconn Hfault.
  pose proof (connect_hana_dialled _ _ _ _ _ Hconn) as (Hh & Ht & _).
  assert (Hfault1 : forall i, driver_fault (host w1) i = None)
    by (rewrite Hh; exact Hfault).
  eexists. split.
  { unfold delete_product. apply api_ok_returns.
    rewrite (delete_product_runs nm w c w1 Hconn Hfault1). rewrite Ht. reflexivity. }
  cbn [table after_calls].
  assert (Hin : forall r,
             In r (List.filter (fun r => negb (name_matches (JStr nm) r)) (table w))
             <-> In r (table w) /\ name r <> JStr nm).
  { intros r. rewrite filter_In, negb_true_iff.
    rewrite <- (name_matches_spec nm r).
    destruct (name_matches (JStr nm) r); intuition congruence. }
  split; [exact Hin|]. split; [|split].
  - pose proof (filter_length_split (name_matches (JStr nm)) (table w)) as Hlen.
    unfold affected. lia.
  - apply affected_none. intros r Hr. now apply Hin in Hr.
  - intros Hno. split; [now apply affected_none|].
    apply filter_all. intros r Hr. apply negb_true_iff.
    destruct (name_matches (JStr nm) r) eqn:Hm; [|reflexivity].
    apply name_matches_spec in Hm. destruct (Hno r Hr Hm).
Qed.

Lemma next_id_app t r :
  (forall x, In x t -> product_id x < product_id r) ->
  next_id (t ++ [r]) = product_id r + 1.
Proof.
  intros Hlt.
  destruct (next_id_spec (t ++ [r])) as (_ & Hub & Hmax).
  destruct Hmax as (r0 & Hin & Heq); [now destruct t|].
  pose proof (Hub r ltac:(apply in_or_app; right; now left)) as Hr.
  apply in_app_or in Hin as [Hin | [<- | []]]; [|exact Heq].
  specialize (Hlt r0 Hin). lia.
Qed.

(** X15. When an insertion succeeds, the identifier it returns is not
    one of the table's, the rows that were there are kept and the new
    row is put after them; so identifiers that were distinct stay
    distinct, and the next insertion would get the identifier after this
    one. *)
Theorem insert_product_fresh_id w kvs c w1 :
  request_json (host w) = Ok (JDict kvs) ->
  truthy (default JNull (dict_lookup "name" kvs)) = true ->
  connect_hana 3 default_backoff w = (Ok c, w1) ->
  (forall i, driver_fault (host w) i = None) ->
  exists new w',
    insert_product tt w =
      (Ok (Response 201 (JDict [("status", JStr "ok"); ("product_id", JInt new)])), w') /\
    map product_id (table w') = map product_id (table w) ++ [new] /\
    ~ In new (map product_id (table w)) /\
    (NoDup (map product_id (table w)) -> NoDup (map product_id (table w'))) /\
    (forall r, In r (table w) -> In r (table w')) /\
    next_id (table w') = new + 1.
Proof.
  intros Hreq Htrue Hconn Hfault.
  pose proof (connect_hana_dialled _ _ _ _ _ Hconn) as (Hh & Ht & _).
  assert (Hfault1 : forall i, driver_fault (host w1) i = None)
    by (rewrite Hh; exact Hfault).
  destruct (dict_lookup "name" kvs) as [n|] eqn:Hn; [|discriminate].
  cbn [default from_option id] in Htrue.
  exists (next_id (table w)). eexists. split.
  { unfold insert_product. apply api_ok_returns.
    rewrite (insert_product_runs w kvs n c w1 Hreq Hn Htrue Hconn Hfault1).
    rewrite Ht. reflexivity. }
  cbn [table after_calls].
  destruct (next_id_spec (table w)) as (_ & Hub & _).
  assert (Hnew : ~ In (next_id (table w)) (map product_id (table w))).
  { intros Hin. apply in_map_iff in Hin as (r & Heq & Hr).
    specialize (Hub r Hr). lia. }
  split; [now rewrite map_app|]. split; [exact Hnew|]. split; [|split].
  - intros Hnd. rewrite map_app. cbn [map product_id].
    apply NoDup_app. split; [exact Hnd|]. split.
    + intros x Hx Hx'. apply list_elem_of_In in Hx.
      apply list_elem_of_In in Hx' as [<- | []]. now apply Hnew.
    + apply NoDup_singleton.
  - intros r Hr. apply in_or_app. now left.
  - now apply next_id_app.
Qed.

Lemma redescribe_twice nm d r :
  redescribe nm d (redescribe nm d r) = redescribe nm d r.
Proof.
  unfold redescribe. destruct (name_matches (JStr nm) r) eqn:Hm.
  - unfold name_matches in *. cbn. now rewrite Hm.
  - now rewrite Hm.
Qed.

Lemma name_matches_redescribe nm d r :
  name_matches (JStr nm) (redescribe nm d r) = name_matches (JStr nm) r.
Proof.
  unfold redescribe. destruct (name_matches (JStr nm) r) eqn:Hm; [|exact Hm].
  unfold name_matches in *. cbn. exact Hm.
Qed.

Lemma affected_redescribe nm d t :
  affected nm (map (redescribe nm d) t) = affected nm t.
Proof.
  unfold affected. f_equal.
  induction t as [|r t IH]; [reflexivity|].
  cbn [map List.filter]. rewrite name_matches_redescribe.
  destruct (name_matches (JStr nm) r); cbn [length]; now rewrite IH.
Qed.

(** X16. When an update succeeds, the table keeps its rows in place with
    their identifiers, names and vectors; afterwards every row of the
    given name has the new description; [rows_affected] lies between 0
    and the number of rows; and the same update made again would leave
    the table as it is and affect the same number of rows. *)
Theorem update_product_keeps_rows nm w kvs d c w1 :
  request_json (host w) = Ok (JDict kvs) ->
  dict_lookup "description" kvs = Some d ->
  d <> JNull ->
  connect_hana 3 default_backoff w = (Ok c, w1) ->
  (forall i, driver_fault (host w) i = None) ->
  exists w',
    update_product nm w =
      (Ok (Response 200 (JDict [("status", JStr "ok");
                                ("rows_affected", JInt (affected nm (table w)))])), w') /\
    map product_id (table w') = map product_id (table w) /\
    map name (table w') = map name (table w) /\
    map vector (table w') = map vector (table w) /\
    (forall r, In r (table w') -> name r = JStr nm -> description r = d) /\
    0 <= affected nm (table w) <= Z.of_nat (length (table w)) /\
    map (redescribe nm d) (table w') = table w' /\
    affected nm (table w') = affected nm (table w).
Proof.
  intros Hreq Hd Hnn Hconn Hfault.
  pose proof (connect_hana_dialled _ _ _ _ _ Hconn) as (Hh & Ht & _).
  assert (Hfault1 : forall i, driver_fault (host w1) i = None)
    by (rewrite Hh; exact Hfault).
  apply is_none_spec in Hnn.
  eexists. split.
  { unfold update_product. apply api_ok_returns.
    rewrite (update_product_runs nm w kvs d c w1 Hreq Hd Hnn Hconn Hfault1).
    rewrite Ht. reflexivity. }
  cbn [table after_calls].
  assert (Hfield : forall {B} (f : row -> B),
             (forall r, f (redescribe nm d r) = f r) ->
             map f (map (redescribe nm d) (table w)) = map f (table w)).
  { intros B f Hf. rewrite List.map_map. apply List.map_ext. exact Hf. }
  split; [apply Hfield; intros r; unfold redescribe; now destruct (name_matches _ r)|].
  split; [apply Hfield; intros r; unfold redescribe; now destruct (name_matches _ r)|].
  split; [apply Hfield; intros r; unfold redescribe; now destruct (name_matches _ r)|].
  split; [|split; [|split]].
  - intros r Hr Hname. apply in_map_iff in Hr as (r0 & <- & _).
    apply name_matches_spec in Hname. rewrite name_matches_redescribe in Hname.
    unfold redescribe. now rewrite Hname.
  - unfold affected. split; [lia|].
    apply inj_le. apply List.filter_length_le.
  - rewrite List.map_map. apply List.map_ext. intros r. apply redescribe_twice.
  - apply affected_redescribe.
Qed.

(** X17. A body that is valid JSON but no object (a list, a string, a
    number, null) makes [payload.get] fail: the insertion and the update
    answer 500 [internal] with the [AttributeError], and the world is
    left as it was, so no connection was attempted.  When the body cannot
    be decoded at all, the answer is the envelope of the exception that
    [get_json] raised. *)
Theorem handlers_reject_bad_body nm w :
  (forall j, request_json (host w) = Ok j -> is_dict j = false ->
     insert_product tt w = (Ok (Response 500 (internal_body (no_get j 104))), w) /\
     update_product nm w = (Ok (Response 500 (internal_body (no_get j 120))), w)) /\
  (forall e, request_json (host w) = Raise e -> isinstance e Exception = true ->
     insert_product tt w = (Ok (envelope_of e), w) /\
     update_product nm w = (Ok (envelope_of e), w)).
Proof.
  split.
  - intros j Hreq Hj.
    assert (Hget : get_json w = (Ok j, w)) by (unfold get_json; now rewrite Hreq).
    split; apply api_ok_internal; try reflexivity.
    + unfold insert_product_body.
      rewrite (bind_ok get_host _ w (host w) w) by reflexivity.
      rewrite (bind_ok _ _ _ _ _ Hget).
      destruct j; try discriminate Hj; reflexivity.
    + unfold update_product_body.
      rewrite (bind_ok get_host _ w (host w) w) by reflexivity.
      rewrite (bind_ok _ _ _ _ _ Hget).
      destruct j; try discriminate Hj; reflexivity.
  - intros e Hreq He.
    assert (Hget : get_json w = (Raise e, w)) by (unfold get_json; now rewrite Hreq).
    split; (apply api_ok_exception; [|exact He]).
    + unfold insert_product_body.
      rewrite (bind_ok get_host _ w (host w) w) by reflexivity.
      now rewrite (bind_raise _ _ _ _ _ Hget).
    + unfold update_product_body.
      rewrite (bind_ok get_host _ w (host w) w) by reflexivity.
      now rewrite (bind_raise _ _ _ _ _ Hget).
Qed.

(* ================================================================== *)
(** * No session is closed twice *)
(* ================================================================== *)

Lemma quiet_pure {A} (m : M A) :
  (forall w, snd (m w) = w) -> quiet m.
Proof.
  intros Hpure w r w' Hrun. exists []. rewrite app_nil_r.
  specialize (Hpure w). rewrite Hrun in Hpure. cbn in Hpure.
  split; [now rewrite Hpure | reflexivity].
Qed.

Lemma quiet_ret {A} (a : A) : quiet (mret a).
Proof. now apply quiet_pure. Qed.

Lemma quiet_raise {A} e : quiet (raise (A := A) e).
Proof. now apply quiet_pure. Qed.

Lemma quiet_bind {A B} (m : M A) (f : A -> M B) :
  quiet m -> (forall a, quiet (f a)) -> quiet (m ≫= f).
Proof.
  intros Hm Hf w r w'. unfold mbind, M_bind.
  destruct (m w) as [[a|e] w1] eqn:Hrun;
    destruct (Hm w _ w1 Hrun) as (evs1 & Hc1 & Hz1).
  - intros Hrun2. destruct (Hf a w1 r w' Hrun2) as (evs2 & Hc2 & Hz2).
    exists (evs1 ++ evs2). split; [now rewrite Hc2, Hc1, app_assoc|].
    intros c. now rewrite count_closes_app, Hz1, Hz2.
  - intros [= <- <-]. now exists evs1.
Qed.

Lemma quiet_driver_call ev :
  (forall c, is_close_of c ev = false) -> quiet (driver_call ev).
Proof.
  intros Hev w r w' Hrun. exists [ev]. split.
  - unfold driver_call in Hrun.
    destruct (driver_fault (host w) (driver_calls w)); now injection Hrun as _ <-.
  - intros c. unfold count_closes. cbn. now rewrite Hev.
Qed.

Lemma quiet_apply_statement q : quiet (apply_statement q).
Proof.
  intros w r w' Hrun. exists []. rewrite app_nil_r. split; [|reflexivity].
  unfold apply_statement in Hrun.
  destruct (run_statement q (table w)) as [[t' cs]|e]; now injection Hrun as _ <-.
Qed.

Lemma quiet_take_all : quiet take_all.
Proof.
  intros w r w' [= _ <-]. exists []. now rewrite app_nil_r.
Qed.

Lemma quiet_take_one : quiet take_one.
Proof.
  intros w r w' Hrun. exists []. rewrite app_nil_r. split; [|reflexivity].
  unfold take_one in Hrun.
  destruct (pending (cursor w)); now injection Hrun as _ <-.
Qed.

Lemma quiet_cur_rowcount c : quiet (cur_rowcount c).
Proof. now apply quiet_pure. Qed.

Lemma quiet_plus_one v : quiet (plus_one v).
Proof. apply quiet_pure. intros w. now destruct v. Qed.

Lemma quiet_tuple_get r i line : quiet (tuple_get r i line).
Proof. apply quiet_pure. intros w. unfold tuple_get. now destruct (r !! i). Qed.

Lemma quiet_mapM_product_json rows : quiet (mapM product_json rows).
Proof.
  induction rows as [|r rows IH]; [apply quiet_ret|].
  cbn [mapM]. apply quiet_bind.
  - unfold product_json.
    repeat (apply quiet_bind; [apply quiet_tuple_get | intros ?]). apply quiet_ret.
  - intros y. apply quiet_bind; [exact IH|]. intros k. apply quiet_ret.
Qed.

Lemma closing_bind {A B} c (m : M A) (f : A -> M B) :
  quiet m -> (forall a, closing c (f a)) -> closing c (m ≫= f).
Proof.
  intros Hm Hf w r w'. unfold mbind, M_bind.
  destruct (m w) as [[a|e] w1] eqn:Hrun;
    destruct (Hm w _ w1 Hrun) as (evs1 & Hc1 & Hz1).
  - intros Hrun2.
    destruct (Hf a w1 r w' Hrun2) as (evs2 & Hc2 & Hle & Hother & Hok).
    exists (evs1 ++ evs2). split; [now rewrite Hc2, Hc1, app_assoc|].
    split; [rewrite count_closes_app, Hz1; exact Hle|]. split.
    + intros c' Hc'. now rewrite count_closes_app, Hz1, (Hother c' Hc').
    + intros b Hb. now rewrite count_closes_app, Hz1, (Hok b Hb).
  - intros [= <- <-]. exists evs1. split; [exact Hc1|].
    rewrite Hz1. split; [lia|]. split; [intros c' _; apply Hz1|].
    intros b Hb. discriminate Hb.
Qed.

Lemma count_closes_one c c' :
  count_closes c' [EvClose (delay := delay) c] = if Nat.eqb c' c then 1%nat else 0%nat.
Proof. unfold count_closes. cbn. now destruct (Nat.eqb c' c). Qed.

Lemma closing_close {B} c (f : unit -> M B) :
  (forall a, quiet (f a)) -> closing c (conn_close c ≫= f).
Proof.
  intros Hf w r w'. unfold mbind, M_bind, conn_close, driver_call.
  assert (Hne : forall c', c' <> c -> Nat.eqb c' c = false)
    by (intros c' Hc'; now apply Nat.eqb_neq).
  destruct (driver_fault (host w) (driver_calls w)) as [e|].
  - intros [= <- <-]. exists [EvClose c]. cbn [calls]. split; [reflexivity|].
    rewrite count_closes_one, Nat.eqb_refl. split; [lia|]. split.
    + intros c' Hc'. now rewrite count_closes_one, (Hne c' Hc').
    + intros b Hb. discriminate Hb.
  - intros Hrun. destruct (Hf tt _ r w' Hrun) as (evs & Hc & Hz).
    cbn [calls] in Hc. exists (EvClose c :: evs).
    split; [now rewrite Hc, <- app_assoc|].
    change (EvClose c :: evs) with ([EvClose c] ++ evs).
    rewrite count_closes_app, count_closes_one, Nat.eqb_refl, Hz.
    split; [lia|]. split; [|reflexivity].
    intros c' Hc'. now rewrite count_closes_app, count_closes_one, (Hne c' Hc'), Hz.
Qed.

Ltac quiet_step :=
  first
    [ apply quiet_ret
    | apply quiet_driver_call; reflexivity
    | apply quiet_apply_statement
    | apply quiet_take_all
    | apply quiet_take_one
    | apply quiet_cur_rowcount
    | apply quiet_plus_one
    | apply quiet_mapM_product_json
    | apply quiet_bind; [|intros ?] ].

Ltac closing_steps :=
  unfold conn_cursor, cur_execute, cur_fetchall, cur_fetchone, conn_commit, cur_close;
  repeat first
    [ apply closing_close; intros ?; repeat quiet_step
    | apply closing_bind; [repeat quiet_step | intros ?] ].

(** The run of the rest of a handler after [connect_hana]. *)
Lemma closed_after_connect (w w1 : world) (c : conn) (rest : M response) :
  dialled w w1 ->
  closing c rest ->
  closed_at_most_once w c (rest w1).
Proof.
  intros (_ & _ & _ & _ & evs0 & Hl & Hf) Hcl.
  destruct (rest w1) as [r w'] eqn:Hrun.
  destruct (Hcl w1 r w' Hrun) as (evs & Hc & Hle & Hother & Hok).
  pose proof (fun c' => count_closes_dial c' evs0 Hf) as Hz.
  exists (evs0 ++ evs). cbn [fst snd].
  split; [now rewrite Hc, Hl, app_assoc|].
  split; [rewrite count_closes_app, Hz; exact Hle|]. split.
  - intros c' Hc'. now rewrite count_closes_app, Hz, (Hother c' Hc').
  - intros resp -> _. now rewrite count_closes_app, Hz, (Hok resp eq_refl).
Qed.

Lemma closed_nothing w c (out : result response * world) :
  snd out = w ->
  (forall resp, fst out = Ok resp -> status resp <> 200 /\ status resp <> 201) ->
  closed_at_most_once w c out.
Proof.
  intros Hw Hst. exists []. rewrite Hw, app_nil_r.
  split; [reflexivity|]. split; [cbn; lia|]. split; [reflexivity|].
  intros resp Hr [H | H]; destruct (Hst resp Hr); contradiction.
Qed.

Lemma api_ok_closed {A} (fn : A -> M response) a w c :
  closed_at_most_once w c (fn a w) ->
  closed_at_most_once w c (api_ok fn a w).
Proof.
  intros (evs & Hc & Hle & Hother & Hok).
  destruct (fn a w) as [[resp|e] w'] eqn:Hrun; cbn [fst snd] in *.
  - rewrite (api_ok_returns fn a w resp w' Hrun). now exists evs.
  - exists evs. unfold api_ok, mbind, M_bind, try_, mret, M_ret, raise.
    rewrite Hrun.
    destruct (isinstance e RuntimeError); [|destruct (isinstance e Exception)];
      cbn [fst snd]; (split; [exact Hc|]); (split; [exact Hle|]);
      (split; [exact Hother|]); intros resp [= <-]; cbn; intros [H | H];
      discriminate H.
Qed.

Ltac close_rest Hd :=
  match goal with
  | |- closed_at_most_once ?w ?c (?m ?w1) =>
      apply (closed_after_connect w w1 c m Hd); closing_steps
  end.

(** X18. Whatever fails after the session [c] was acquired, a handler
    never calls [close] on it twice and never closes another session;
    and an answer 200 or 201 is given only after the session was closed,
    exactly once.  An answer 400 is given without any call. *)
Theorem sessions_closed_at_most_once w c w1 :
  connect_hana 3 default_backoff w = (Ok c, w1) ->
  closed_at_most_once w c (list_products tt w) /\
  (forall nm, closed_at_most_once w c (delete_product nm w)) /\
  closed_at_most_once w c (insert_product tt w) /\
  (forall nm, closed_at_most_once w c (update_product nm w)).
Proof.
  intros Hconn.
  pose proof (connect_hana_dialled _ _ _ _ _ Hconn) as Hd.
  split; [|split; [|split]].
  - apply api_ok_closed. unfold list_products_body.
    rewrite (bind_ok get_host _ w (host w) w) by reflexivity.
    rewrite (bind_ok _ _ _ _ _ Hconn). close_rest Hd.
  - intros nm. apply api_ok_closed. unfold delete_product_body.
    rewrite (bind_ok get_host _ w (host w) w) by reflexivity.
    rewrite (bind_ok _ _ _ _ _ Hconn). close_rest Hd.
  - apply api_ok_closed. unfold insert_product_body.
    rewrite (bind_ok get_host _ w (host w) w) by reflexivity.
    destruct (request_json (host w)) as [j|e] eqn:Hreq.
    2:{ rewrite (bind_raise get_json _ w e w) by (unfold get_json; now rewrite Hreq).
        apply closed_nothing; [reflexivity | discriminate]. }
    rewrite (bind_ok get_json _ w j w) by (unfold get_json; now rewrite Hreq).
    destruct j as [| | | | |kvs];
      try (apply closed_nothing; [reflexivity | discriminate]).
    unfold payload_get.
    rewrite (bind_ok (mret _) _ w (default JNull (dict_lookup "name" kvs)) w)
      by reflexivity.
    rewrite (bind_ok (mret _) _ w _ w) by reflexivity.
    destruct (truthy (default JNull (dict_lookup "name" kvs))); cbn [negb].
    + rewrite (bind_ok _ _ _ _ _ Hconn). close_rest Hd.
    + apply closed_nothing; [reflexivity|].
      intros resp [= <-]. split; discriminate.
  - intros nm. apply api_ok_closed. unfold update_product_body.
    rewrite (bind_ok get_host _ w (host w) w) by reflexivity.
    destruct (request_json (host w)) as [j|e] eqn:Hreq.
    2:{ rewrite (bind_raise get_json _ w e w) by (unfold get_json; now rewrite Hreq).
        apply closed_nothing; [reflexivity | discriminate]. }
    rewrite (bind_ok get_json _ w j w) by (unfold get_json; now rewrite Hreq).
    destruct j as [| | | | |kvs];
      try (apply closed_nothing; [reflexivity | discriminate]).
    unfold payload_get.
    rewrite (bind_ok (mret _) _ w (default JNull (dict_lookup "description" kvs)) w)
      by reflexivity.
    destruct (is_none (default JNull (dict_lookup "description" kvs))).
    + apply closed_nothing; [reflexivity|].
      intros resp [= <-]. split; discriminate.
    + rewrite (bind_ok _ _ _ _ _ Hconn). close_rest Hd.
Qed.

(* ================================================================== *)
(** * Reading the environment *)
(* ================================================================== *)











(* ================================================================== *)
(** * The TLS test *)
(* ================================================================== *)

(** X22. Once the configuration is read, the TLS test answers 200
    whatever the two probes meet, as long as what they raise is an
    [Exception]: the body starts with the host and the port, a failed
    TCP probe leaves [tcp_error] and no [tcp], a failed handshake leaves
    [tls_error] and no [tls_cipher], and each probe reports on its own.
    The driver is not needed, and the world is left as it was. *)
Theorem tls_test_always_answers w cfg :
  hana_cfg w = (Ok cfg, w) ->
  (forall e, tcp_probe (host w) = TcpConnectRaises e \/
             tcp_probe (host w) = TcpCloseRaises e ->
             isinstance e Exception = true) ->
  (forall c e, tls_probe (host w) = TlsRaises e \/
               tls_probe (host w) = TlsCloseRaises c e ->
               isinstance e Exception = true) ->
  exists out,
    tls_test tt w =
      (Ok (Response 200 (JDict (("host", json_of_opt (address cfg))
                                :: ("port", JInt (port cfg)) :: out))), w) /\
    (tcp_probe (host w) = TcpOk ->
       dict_lookup "tcp" out = Some (JStr "ok") /\ dict_lookup "tcp_error" out = None) /\
    (forall e, tcp_probe (host w) = TcpConnectRaises e ->
       dict_lookup "tcp" out = None /\
       dict_lookup "tcp_error" out = Some (JStr (exn_str e))) /\
    (forall c, tls_probe (host w) = TlsCipher c ->
       dict_lookup "tls_cipher" out = Some c /\ dict_lookup "tls_error" out = None) /\
    (forall e, tls_probe (host w) = TlsRaises e ->
       dict_lookup "tls_cipher" out = None /\
       dict_lookup "tls_error" out = Some (JStr (exn_str e))).
Proof.
  intros Hcfg Htcp Htls.
  assert (Ht : match tcp_probe (host w) with
               | TcpOk => True
               | TcpConnectRaises e | TcpCloseRaises e => isinstance e Exception = true
               end).
  { destruct (tcp_probe (host w)) as [|e|e]; [exact I| |]; apply Htcp; auto. }
  assert (Hs : match tls_probe (host w) with
               | TlsCipher _ => True
               | TlsRaises e | TlsCloseRaises _ e => isinstance e Exception = true
               end).
  { destruct (tls_probe (host w)) as [c|e|c e]; [exact I| |].
    - apply (Htls JNull). now left.
    - apply (Htls c). now right. }
  clear Htcp Htls.
  assert (Hbody : forall r,
             (let out := [("host", json_of_opt (address cfg)); ("port", JInt (port cfg))] in
              out ← match tcp_probe (host w) with
                    | TcpOk => mret (out ++ [("tcp", JStr "ok")])
                    | TcpConnectRaises e => absorb out "tcp_error" e
                    | TcpCloseRaises e => absorb (out ++ [("tcp", JStr "ok")]) "tcp_error" e
                    end;
              out ← match tls_probe (host w) with
                    | TlsCipher c => mret (out ++ [("tls_cipher", c)])
                    | TlsRaises e => absorb out "tls_error" e
                    | TlsCloseRaises c e => absorb (out ++ [("tls_cipher", c)]) "tls_error" e
                    end;
              mret (jsonify (JDict out))) w = (Ok r, w) ->
             tls_test tt w = (Ok r, w)).
  { intros r Hr. apply api_ok_returns. unfold tls_test_body.
    rewrite (bind_ok _ _ _ _ _ Hcfg).
    rewrite (bind_ok get_host _ w (host w) w) by reflexivity. exact Hr. }
  destruct (tcp_probe (host w)) as [|e1|e1]; destruct (tls_probe (host w)) as [c|e2|c e2];
    eexists; (split; [apply Hbody; unfold absorb, mbind, M_bind, mret, M_ret;
                      rewrite ?Ht, ?Hs; reflexivity|]);
    (split; [intros H; try discriminate H; split; reflexivity|]);
    (split; [intros e H; try discriminate H; injection H as <-; split; reflexivity|]);
    (split; [intros c' H; try discriminate H; injection H as <-; split; reflexivity|]);
    intros e H; try discriminate H; injection H as <-; split; reflexivity.
Qed.

End App.

(* ================================================================== *)
(** * Concrete runs *)
(* ================================================================== *)

Example int_of_str_examples :
  int_of_str "443" = Some 443 /\ int_of_str " +4_43 " = Some 443 /\
  int_of_str "-12" = Some (-12) /\ int_of_str "abc" = None /\
  int_of_str "" = None /\ int_of_str "4__3" = None /\ int_of_str "- 3" = None.
Proof. repeat split; reflexivity. Qed.

Example hana_cfg_full :
  hana_cfg Z no_frames w_ready = (Ok cfg_full, w_ready).
Proof. vm_compute. reflexivity. Qed.

Example insert_after_five :
  fst (insert_product Z Z.mul sleep_nonneg 1 no_frames tt w_ready) =
  Ok (Response 201 (JDict [("status", JStr "ok"); ("product_id", JInt 6)])).
Proof. vm_compute. reflexivity. Qed.

Example insert_into_empty :
  fst (insert_product Z Z.mul sleep_nonneg 1 no_frames tt w_fresh) =
  Ok (Response 201 (JDict [("status", JStr "ok"); ("product_id", JInt 1)])).
Proof. vm_compute. reflexivity. Qed.

Example delete_nonexistent :
  fst (delete_product Z Z.mul sleep_nonneg 1 no_frames "Nonexistent" w_ready) =
  Ok (Response 200 (JDict [("status", JStr "ok"); ("rows_affected", JInt 0)])).
Proof. vm_compute. reflexivity. Qed.

Example list_is_ordered :
  fst (list_products Z Z.mul sleep_nonneg 1 no_frames tt w_ready) =
  Ok (Response 200
        (JDict [("products",
                 JList [JDict [("product_id", JInt 2); ("name", JStr "Gadget");
                               ("description", JStr "")];
                        JDict [("product_id", JInt 3); ("name", JStr "Widget");
                               ("description", JStr "older")];
                        JDict [("product_id", JInt 5); ("name", JStr "Widget");
                               ("description", JStr "old")]])])).
Proof. vm_compute. reflexivity. Qed.

(** ** The retry loop on concrete drivers *)

Lemma fails_first_lt k j :
  (j < k)%nat ->
  exists e, fails_first k (0 + j) = Some e /\ isinstance e Exception = true.
Proof.
  intros Hj. exists refused. split; [|reflexivity].
  unfold fails_first. cbn [Nat.add].
  now rewrite (proj2 (Nat.ltb_lt j k) Hj).
Qed.

Lemma sleep_nonneg_ok (j : nat) : sleep_nonneg (1 * (1 + Z.of_nat j)) = None.
Proof.
  unfold sleep_nonneg.
  destruct (Z.ltb_spec (1 * (1 + Z.of_nat j)) 0) as [Hneg|]; [lia|reflexivity].
Qed.

(** Two refusals, then a session: three attempts, sleeps of 1 and 2. *)
Lemma connect_hana_retry_witness :
  exists w' evs,
    connect_hana Z Z.mul sleep_nonneg no_frames 3 1 w_flaky = (Ok 2%nat, w') /\
    calls w' = evs /\
    count_connects Z evs = 3%nat /\
    sleeps Z evs = [1; 2].
Proof.
  destruct (connect_hana_retry Z Z.mul sleep_nonneg no_frames 2 1 w_flaky cfg_full)
    as (w' & evs & Hrun & Hcalls & _ & _ & Hcount & Hsleeps & _).
  - lia.
  - reflexivity.
  - vm_compute. reflexivity.
  - reflexivity.
  - intros j Hj. now apply fails_first_lt.
  - reflexivity.
  - intros j _. apply sleep_nonneg_ok.
  - exists w', evs. repeat split; assumption.
Defined.

(** Three refusals: three attempts and three sleeps, of 1, 2 and 3. *)
Lemma connect_hana_exhausted_witness :
  exists w' evs,
    connect_hana Z Z.mul sleep_nonneg no_frames 3 1 w_down =
      (Raise (connect_failed no_frames 3 refused), w') /\
    calls w' = evs /\
    count_connects Z evs = 3%nat /\
    sleeps Z evs = [1; 2; 3] /\
    length (sleeps Z evs) <> 2%nat.
Proof.
  destruct (connect_hana_exhausted Z Z.mul sleep_nonneg no_frames 1 w_down cfg_full)
    as (last & w' & evs & Hlast & Hrun & Hcalls & _ & Hcount & Hsleeps).
  - reflexivity.
  - vm_compute. reflexivity.
  - reflexivity.
  - intros j Hj. now apply fails_first_lt.
  - intros j _. apply sleep_nonneg_ok.
  - injection Hlast as <-.
    exists w', evs. repeat split; try assumption.
    rewrite Hsleeps. discriminate.
Defined.

Lemma connect_hana_config_missing_witness :
  exists e,
    connect_hana Z Z.mul sleep_nonneg no_frames 3 1 w_no_password =
      (Raise e, w_no_password) /\
    configuration_error no_frames e /\
    exn_type e = RuntimeError.
Proof.
  apply (connect_hana_config_missing Z Z.mul sleep_nonneg no_frames 3 1
           w_no_password cfg_no_password).
  - vm_compute. reflexivity.
  - reflexivity.
Defined.

(** ** The envelope on concrete handlers *)

(** C4 as stated fails: a handler raises a [RuntimeError] that is neither
    a configuration error nor a connection error, and the answer is 502
    [connection_error], not 500 [internal]. *)
Lemma api_ok_other_runtime_error :
  raises_boom tt w_ready = (Raise boom, w_ready) /\
  ~ configuration_error no_frames boom /\
  ~ connection_error no_frames boom /\
  api_ok Z raises_boom tt w_ready =
    (Ok (Response 502 (connection_error_body boom)), w_ready) /\
  api_ok Z raises_boom tt w_ready <>
    (Ok (Response 500 (internal_body boom)), w_ready).
Proof.
  split; [reflexivity|]. split; [|split; [|split]].
  - intros [H | H]; discriminate H.
  - intros (retries & last & H).
    destruct (connect_failed_str_head no_frames retries last) as (rest & Hrest).
    rewrite <- H in Hrest. discriminate Hrest.
  - reflexivity.
  - discriminate.
Qed.

Lemma api_ok_envelope_witness :
  api_ok Z raises_bad_value tt w_ready =
    (Ok (Response 500 (internal_body bad_value)), w_ready) /\
  format_exception bad_value <> "".
Proof.
  apply (api_ok_envelope Z no_frames raises_bad_value tt w_ready bad_value w_ready);
    reflexivity.
Defined.

(** C5 as stated fails: the connection error and the configuration error
    are of one kind. *)
Lemma connection_error_same_kind :
  connection_error no_frames (connect_failed no_frames 3 refused) /\
  configuration_error no_frames (config_missing no_frames) /\
  ~ exn_type (connect_failed no_frames 3 refused) <> exn_type (config_missing no_frames).
Proof.
  split; [now exists 3, refused|]. split; [now right|].
  intros H. now apply H.
Qed.

Lemma connection_error_kind_witness :
  exn_type (connect_failed no_frames 3 refused) = RuntimeError /\
  exn_type (config_missing no_frames) = RuntimeError /\
  exn_str (connect_failed no_frames 3 refused) <> exn_str (config_missing no_frames).
Proof.
  destruct (connection_error_kind Z no_frames
              (connect_failed no_frames 3 refused) (config_missing no_frames))
    as (H1 & H2 & _ & H3 & _).
  - now exists 3, refused.
  - now right.
  - repeat split; assumption.
Defined.

(** ** The handlers on concrete requests *)

(** C6 as stated fails: the listing opens session 0, its [execute]
    raises, and the handler answers 500 without a [close] of the
    session. *)
Lemma close_skipped_when_execute_raises :
  exists resp w',
    list_products Z Z.mul sleep_nonneg 1 no_frames tt w_broken = (Ok resp, w') /\
    status resp = 500 /\
    calls w' =
      [EvConnect cfg_full; EvCursor 0%nat;
       EvExecute 0%nat (SelectAll "SMART_RETAIL1")] /\
    connect_outcome (host w_broken) 0%nat = None /\
    count_closes Z 0%nat (calls w') = 0%nat /\
    count_closes Z 0%nat (calls w') <> 1%nat.
Proof.
  eexists _, _. split; [vm_compute; reflexivity|].
  repeat split; discriminate.
Qed.

Lemma handlers_close_once_witness :
  returns_closed Z w_ready 0%nat 200
    (list_products Z Z.mul sleep_nonneg 1 no_frames tt w_ready) /\
  returns_closed Z w_ready 0%nat 200
    (delete_product Z Z.mul sleep_nonneg 1 no_frames "Widget" w_ready) /\
  returns_closed Z w_ready 0%nat 201
    (insert_product Z Z.mul sleep_nonneg 1 no_frames tt w_ready) /\
  returns_closed Z w_ready 0%nat 200
    (update_product Z Z.mul sleep_nonneg 1 no_frames "Widget" w_ready).
Proof.
  destruct (handlers_close_once Z Z.mul sleep_nonneg 1 no_frames w_ready 0%nat
              (World (host w_ready) stock (CursorState [] (-1)) 1 0
                     [EvConnect cfg_full]))
    as (Hlist & Hdelete & Hinsert & Hupdate).
  - vm_compute. reflexivity.
  - reflexivity.
  - split; [exact Hlist|]. split; [exact (Hdelete "Widget")|]. split.
    + exact (Hinsert [("name", JStr "Widget"); ("description", JStr "")] eq_refl).
    + exact (Hupdate "Widget" [("name", JStr "Widget"); ("description", JStr "")]
               eq_refl).
Defined.

Lemma insert_product_spec_witness :
  insert_product Z Z.mul sleep_nonneg 1 no_frames tt w_no_fields =
    (Ok name_required, w_no_fields) /\
  exists new w',
    insert_product Z Z.mul sleep_nonneg 1 no_frames tt w_ready =
      (Ok (Response 201 (JDict [("status", JStr "ok"); ("product_id", JInt new)])), w') /\
    new = 6 /\
    table w' = stock ++ [Row 6 (JStr "Widget") (JStr "") JNull].
Proof.
  split.
  - apply (insert_product_spec Z Z.mul sleep_nonneg 1 no_frames w_no_fields []);
      reflexivity.
  - destruct (insert_product_spec Z Z.mul sleep_nonneg 1 no_frames w_ready
                [("name", JStr "Widget"); ("description", JStr "")] eq_refl)
      as (_ & Hok).
    destruct (Hok 0%nat
                (World (host w_ready) stock (CursorState [] (-1)) 1 0
                       [EvConnect cfg_full]))
      as (new & w' & Hrun & _ & Hlt & Hmax & Htable).
    + reflexivity.
    + vm_compute. reflexivity.
    + reflexivity.
    + assert (Hnew : new = 6).
      { destruct (Hmax ltac:(discriminate)) as (r & Hin & ->).
        pose proof (Hlt (Row 5 (JStr "Widget") (JStr "old") JNull)
                        ltac:(now left)) as Hfive.
        cbn in Hfive.
        destruct Hin as [<- | [<- | [<- | []]]]; cbn in *; lia. }
      exists new, w'. split; [exact Hrun|]. split; [exact Hnew|].
      rewrite Htable, Hnew. reflexivity.
Defined.

(** C8 as stated fails: the description key is present, with the value
    null, and the answer is 400 [description_required], not 200. *)
Lemma update_product_null_is_rejected :
  request_json (host w_null) = Ok (JDict [("description", JNull)]) /\
  dict_lookup "description" [("description", JNull)] = Some JNull /\
  update_product Z Z.mul sleep_nonneg 1 no_frames "Widget" w_null =
    (Ok description_required, w_null) /\
  status description_required <> 200.
Proof.
  split; [reflexivity|]. split; [reflexivity|].
  split; [vm_compute; reflexivity | discriminate].
Qed.

Lemma update_product_spec_witness :
  exists w',
    update_product Z Z.mul sleep_nonneg 1 no_frames "Widget" w_ready =
      (Ok (Response 200 (JDict [("status", JStr "ok"); ("rows_affected", JInt 2)])), w') /\
    table w' =
      [Row 5 (JStr "Widget") (JStr "") JNull;
       Row 2 (JStr "Gadget") (JStr "") JNull;
       Row 3 (JStr "Widget") (JStr "") JNull].
Proof.
  destruct (update_product_spec Z Z.mul sleep_nonneg 1 no_frames "Widget" w_ready
              [("name", JStr "Widget"); ("description", JStr "")] eq_refl)
    as (_ & Hok).
  destruct (Hok (JStr "") 0%nat
              (World (host w_ready) stock (CursorState [] (-1)) 1 0
                     [EvConnect cfg_full]))
    as (w' & Hrun & Htable & _).
  - reflexivity.
  - discriminate.
  - vm_compute. reflexivity.
  - reflexivity.
  - exists w'. split; [exact Hrun | exact Htable].
Defined.

Lemma update_product_null_description_witness :
  update_product Z Z.mul sleep_nonneg 1 no_frames "Widget" w_null =
    (Ok description_required, w_null) /\
  fst (update_product Z Z.mul sleep_nonneg 1 no_frames "Widget" w_null) =
  fst (update_product Z Z.mul sleep_nonneg 1 no_frames "Widget" w_no_fields).
Proof.
  apply (update_product_null_description Z Z.mul sleep_nonneg 1 no_frames "Widget"
           w_null [("description", JNull)] w_no_fields []); reflexivity.
Defined.

Lemma invalid_port_is_internal_witness :
  hana_cfg Z no_frames w_bad_port = (Raise (invalid_literal no_frames "abc"), w_bad_port) /\
  list_products Z Z.mul sleep_nonneg 1 no_frames tt w_bad_port =
    (Ok (Response 500 (internal_body (invalid_literal no_frames "abc"))), w_bad_port) /\
  tls_test Z no_frames tt w_bad_port =
    (Ok (Response 500 (internal_body (invalid_literal no_frames "abc"))), w_bad_port).
Proof.
  destruct (invalid_port_is_internal Z Z.mul sleep_nonneg 1 no_frames w_bad_port "abc")
    as (Hcfg & _ & _ & _ & _ & Htls & Hrest).
  - vm_compute. reflexivity.
  - reflexivity.
  - destruct (Hrest eq_refl) as (Hlist & _).
    split; [exact Hcfg|]. split; [exact Hlist | exact Htls].
Defined.

(** ** Further runs of [connect_hana] *)

Lemma connect_hana_bounded_witness :
  exists evs,
    calls (snd (connect_hana Z Z.mul sleep_nonneg no_frames 3 1 w_down)) =
      calls w_down ++ evs /\
    Z.of_nat (count_connects Z evs) <= 3 /\
    (length (sleeps Z evs) <= count_connects Z evs)%nat.
Proof.
  destruct (connect_hana_bounded Z Z.mul sleep_nonneg no_frames 3 1 w_down
              (fst (connect_hana Z Z.mul sleep_nonneg no_frames 3 1 w_down))
              (snd (connect_hana Z Z.mul sleep_nonneg no_frames 3 1 w_down)))
    as (_ & _ & _ & _ & evs & Hc & _ & _ & Hle & Hsl).
  - vm_compute. reflexivity.
  - exists evs. repeat split; assumption.
Defined.

Lemma connect_hana_fresh_session_witness :
  connect_outcome (host w_flaky) 2%nat = None /\
  (connects w_flaky <= 2
   < connects (snd (connect_hana Z Z.mul sleep_nonneg no_frames 3%Z 1%Z w_flaky)))%nat /\
  0 < 3.
Proof.
  apply (connect_hana_fresh_session Z Z.mul sleep_nonneg no_frames 3 1 w_flaky 2%nat).
  vm_compute. reflexivity.
Defined.

Lemma connect_hana_exhausted_any_witness :
  exists w',
    connect_hana Z Z.mul sleep_nonneg no_frames 5 1 w_dead =
      (Raise (connect_failed no_frames 5 refused), w') /\
    connects w' = 5%nat /\
    sleeps Z (calls w') = [1; 2; 3; 4; 5].
Proof.
  destruct (connect_hana_exhausted_any Z Z.mul sleep_nonneg no_frames 5%nat 1%Z w_dead cfg_full)
    as (last & w' & Hlast & Hrun & Hcalls & Hn & _ & Hsleeps).
  - lia.
  - reflexivity.
  - vm_compute. reflexivity.
  - reflexivity.
  - intros j Hj. now apply fails_first_lt.
  - intros j _. apply sleep_nonneg_ok.
  - injection Hlast as <-. exists w'. split; [exact Hrun|]. split; [exact Hn|].
    rewrite Hcalls. exact Hsleeps.
Defined.

Lemma connect_hana_retry_any_witness :
  exists w',
    connect_hana Z Z.mul sleep_nonneg no_frames 5 1 w_flaky = (Ok 2%nat, w') /\
    connects w' = 3%nat /\
    sleeps Z (calls w') = [1; 2].
Proof.
  destruct (connect_hana_retry_any Z Z.mul sleep_nonneg no_frames 5%nat 2%nat 1%Z w_flaky cfg_full)
    as (w' & Hrun & Hcalls & Hn & _ & Hsleeps).
  - lia.
  - reflexivity.
  - vm_compute. reflexivity.
  - reflexivity.
  - intros j Hj. now apply fails_first_lt.
  - reflexivity.
  - intros j _. apply sleep_nonneg_ok.
  - exists w'. split; [exact Hrun|]. split; [exact Hn|].
    rewrite Hcalls. exact Hsleeps.
Defined.

Lemma connect_hana_no_attempts_witness :
  exists e,
    connect_hana Z Z.mul sleep_nonneg no_frames 0 1 w_ready = (Raise e, w_ready) /\
    exn_type e = AttributeError.
Proof.
  destruct (connect_hana_no_attempts Z Z.mul sleep_nonneg no_frames 0 1 w_ready cfg_full)
    as (e & Hrun & Htype & _).
  - lia.
  - reflexivity.
  - vm_compute. reflexivity.
  - reflexivity.
  - exists e. split; assumption.
Defined.

Lemma connect_hana_not_retried_witness :
  connect_hana Z Z.mul sleep_nonneg no_frames 3 1 w_interrupted =
  (Raise interrupt,
   World (host w_interrupted) stock (CursorState [] (-1)) 1 0 [EvConnect cfg_full]).
Proof.
  apply (connect_hana_not_retried Z Z.mul sleep_nonneg no_frames 3 1 w_interrupted
           cfg_full interrupt).
  - lia.
  - reflexivity.
  - vm_compute. reflexivity.
  - reflexivity.
  - reflexivity.
  - reflexivity.
Defined.

Lemma connect_hana_sleep_raises_witness :
  connect_hana Z Z.mul sleep_nonneg no_frames 3 (-1) w_flaky =
  (Raise negative_sleep,
   World (host w_flaky) stock (CursorState [] (-1)) 1 0 [EvConnect cfg_full]).
Proof.
  apply (connect_hana_sleep_raises Z Z.mul sleep_nonneg no_frames 3 (-1) w_flaky
           cfg_full refused negative_sleep).
  - lia.
  - reflexivity.
  - vm_compute. reflexivity.
  - reflexivity.
  - reflexivity.
  - reflexivity.
  - reflexivity.
Defined.

(** ** Further runs of the envelope and the handlers *)

Lemma api_ok_transparent_witness :
  fst (api_ok Z raises_interrupt tt w_ready) = Raise interrupt.
Proof.
  apply (api_ok_transparent Z raises_interrupt tt w_ready); reflexivity.
Defined.

Lemma handlers_when_connect_raises_witness :
  list_products Z Z.mul sleep_nonneg 1 no_frames tt w_down =
  (Ok (Response 502 (connection_error_body (connect_failed no_frames 3 refused))),
   snd (connect_hana Z Z.mul sleep_nonneg no_frames 3 1 w_down)) /\
  table (snd (connect_hana Z Z.mul sleep_nonneg no_frames 3 1 w_down)) = stock.
Proof.
  destruct (handlers_when_connect_raises Z Z.mul sleep_nonneg 1 no_frames w_down
              (connect_failed no_frames 3 refused)
              (snd (connect_hana Z Z.mul sleep_nonneg no_frames 3 1 w_down)))
    as (Ht & _ & Hlist & _).
  - vm_compute. reflexivity.
  - reflexivity.
  - split; [exact Hlist | exact Ht].
Defined.

Lemma handlers_without_driver_witness :
  list_products Z Z.mul sleep_nonneg 1 no_frames tt w_no_driver =
  (Ok (Response 502 (JDict [("error", JStr "connection_error");
                            ("message", JStr "hdbcli not installed in container")])),
   w_no_driver).
Proof.
  apply (handlers_without_driver Z Z.mul sleep_nonneg 1 no_frames w_no_driver).
  reflexivity.
Defined.

Lemma benign_broken : benign (host w_broken).
Proof.
  repeat split.
  - intros n e H. discriminate H.
  - intros n e. cbn. unfold execute_fails.
    destruct (n =? 1)%nat; [|discriminate]. now intros [= <-].
  - intros e H. discriminate H.
  - intros e [H | H]; discriminate H.
  - intros c e [H | H]; discriminate H.
Qed.

Lemma sleep_nonneg_benign : sleep_benign Z sleep_nonneg.
Proof.
  intros d e. unfold sleep_nonneg. destruct (d <? 0); [|discriminate].
  now intros [= <-].
Qed.

Lemma handlers_always_respond_witness :
  exists resp w',
    list_products Z Z.mul sleep_nonneg 1 no_frames tt w_broken = (Ok resp, w') /\
    host w' = host w_broken.
Proof.
  destruct (handlers_always_respond Z Z.mul sleep_nonneg 1 no_frames w_broken
              benign_broken sleep_nonneg_benign) as (Hlist & _).
  exact Hlist.
Defined.

Lemma w_ready_connects :
  connect_hana Z Z.mul sleep_nonneg no_frames 3 1 w_ready = (Ok 0%nat, w_connected).
Proof. vm_compute. reflexivity. Qed.

Lemma list_products_sorted_witness :
  exists rows w',
    list_products Z Z.mul sleep_nonneg 1 no_frames tt w_ready =
      (Ok (Response 200 (JDict [("products", JList (map entry_of rows))])), w') /\
    rows ≡ₚ stock /\
    StronglySorted row_le rows /\
    table w' = stock.
Proof.
  destruct (list_products_sorted Z Z.mul sleep_nonneg 1 no_frames w_ready 0%nat
              w_connected)
    as (rows & w' & Hrun & Hperm & Hsorted & _ & Ht).
  - exact w_ready_connects.
  - reflexivity.
  - exists rows, w'. repeat split; assumption.
Defined.

Lemma delete_product_spec_witness :
  exists w',
    delete_product Z Z.mul sleep_nonneg 1 no_frames "Widget" w_ready =
      (Ok (Response 200 (JDict [("status", JStr "ok"); ("rows_affected", JInt 2)])), w') /\
    Z.of_nat (length (table w')) + 2 = 3 /\
    affected "Widget" (table w') = 0.
Proof.
  destruct (delete_product_spec Z Z.mul sleep_nonneg 1 no_frames "Widget" w_ready 0%nat
              w_connected)
    as (w' & Hrun & _ & Hlen & Hzero & _).
  - exact w_ready_connects.
  - reflexivity.
  - exists w'. split; [exact Hrun|]. split; [exact Hlen | exact Hzero].
Defined.

Lemma insert_product_fresh_id_witness :
  exists new w',
    insert_product Z Z.mul sleep_nonneg 1 no_frames tt w_ready =
      (Ok (Response 201 (JDict [("status", JStr "ok"); ("product_id", JInt new)])), w') /\
    ~ In new [5; 2; 3] /\
    NoDup (map product_id (table w')) /\
    next_id (table w') = new + 1.
Proof.
  destruct (insert_product_fresh_id Z Z.mul sleep_nonneg 1 no_frames w_ready
              [("name", JStr "Widget"); ("description", JStr "")] 0%nat w_connected)
    as (new & w' & Hrun & _ & Hnew & Hnd & _ & Hnext).
  - reflexivity.
  - reflexivity.
  - exact w_ready_connects.
  - reflexivity.
  - exists new, w'. split; [exact Hrun|]. split; [exact Hnew|].
    split; [|exact Hnext]. apply Hnd.
    apply (bool_decide_unpack (NoDup [5; 2; 3])). reflexivity.
Defined.

Lemma update_product_keeps_rows_witness :
  exists w',
    update_product Z Z.mul sleep_nonneg 1 no_frames "Widget" w_ready =
      (Ok (Response 200 (JDict [("status", JStr "ok"); ("rows_affected", JInt 2)])), w') /\
    map product_id (table w') = [5; 2; 3] /\
    map (redescribe "Widget" (JStr "")) (table w') = table w'.
Proof.
  destruct (update_product_keeps_rows Z Z.mul sleep_nonneg 1 no_frames "Widget" w_ready
              [("name", JStr "Widget"); ("description", JStr "")] (JStr "") 0%nat
              w_connected)
    as (w' & Hrun & Hids & _ & _ & _ & _ & Hidem & _).
  - reflexivity.
  - reflexivity.
  - discriminate.
  - exact w_ready_connects.
  - reflexivity.
  - exists w'. split; [exact Hrun|]. split; [exact Hids | exact Hidem].
Defined.

Lemma handlers_reject_bad_body_witness :
  insert_product Z Z.mul sleep_nonneg 1 no_frames tt w_list_body =
    (Ok (Response 500 (internal_body (no_get no_frames (JList []) 104))), w_list_body) /\
  update_product Z Z.mul sleep_nonneg 1 no_frames "Widget" w_list_body =
    (Ok (Response 500 (internal_body (no_get no_frames (JList []) 120))), w_list_body).
Proof.
  apply (handlers_reject_bad_body Z Z.mul sleep_nonneg 1 no_frames "Widget" w_list_body);
    reflexivity.
Defined.

Lemma w_broken_connects :
  connect_hana Z Z.mul sleep_nonneg no_frames 3 1 w_broken = (Ok 0%nat, w_broken_connected).
Proof. vm_compute. reflexivity. Qed.

Lemma sessions_closed_at_most_once_witness :
  closed_at_most_once Z w_broken 0%nat
    (list_products Z Z.mul sleep_nonneg 1 no_frames tt w_broken).
Proof.
  destruct (sessions_closed_at_most_once Z Z.mul sleep_nonneg 1 no_frames w_broken
              0%nat w_broken_connected w_broken_connects) as (Hlist & _).
  exact Hlist.
Defined.

(** ** Further runs of the configuration readers and of the TLS test *)




Lemma tls_test_always_answers_witness :
  exists out,
    tls_test Z no_frames tt w_unreachable =
      (Ok (Response 200 (JDict (("host", JStr "hana.example") :: ("port", JInt 443)
                                :: out))), w_unreachable) /\
    dict_lookup "tcp" out = None /\
    dict_lookup "tcp_error" out = Some (JStr "timed out") /\
    dict_lookup "tls_error" out = Some (JStr "timed out").
Proof.
  destruct (tls_test_always_answers Z no_frames w_unreachable cfg_full)
    as (out & Hrun & _ & Htcp & _ & Htls).
  - vm_compute. reflexivity.
  - intros e [H | H]; [injection H as <-; reflexivity | discriminate H].
  - intros c e [H | H]; [injection H as <-; reflexivity | discriminate H].
  - destruct (Htcp timed_out eq_refl) as (H1 & H2).
    destruct (Htls timed_out eq_refl) as (_ & H3).
    exists out. split; [exact Hrun|]. repeat split; assumption.
Defined.
